(** * Kobalte listbox: [ListboxRoot] and [SelectListbox]

    A shallow embedding of
    [packages/core/src/listbox/listbox-root.tsx] and of the select
    listbox component, one render at a time: a props object is a finite
    map from property names to JavaScript values, a reactive accessor is
    read at the props of the render being described, and a component is a
    computation that may throw and that logs the framework services it
    calls. *)

From stdpp Require Import gmap strings list fin_maps pretty.

Set Warnings "-register-all".

Local Open Scope string_scope.

(** ** JavaScript values *)

(** [undefined] has no constructor: a property holding [undefined] and a
    missing property read the same through every operation used by the
    components, so both are an absent key of the props map ([None]). *)
Section Values.
Context {Collection SelectionManager : Type}.

(** [ListState] of [../list]: two accessors, read at the current render. *)
Record ListState := {
  collection : Collection;
  selectionManager : SelectionManager;
}.

Inductive Value : Type :=
| VNull
| VBool (b : bool)
| VNum (n : Z)
| VStr (s : string)
| VArr (xs : list Value)
| VFun (name : string)                  (* a function, by identity *)
| VListState (s : ListState)
| VCollectionAccessor (c : Collection). (* [listState().collection] *)
End Values.

Arguments ListState : clear implicits.
Arguments Value : clear implicits.

(** What a computation can throw. *)
Inductive Exn :=
| TypeError (what : string)
| Thrown (by_fn : string).

Inductive Result (A : Type) :=
| Ok (a : A)
| Throw (e : Exn).
Arguments Ok {A} a.
Arguments Throw {A} e.

(** An [Accessor<A>]: a thunk, forced with [tt]. *)
Definition Accessor (A : Type) : Type := unit -> A.

(** ** Argument and result records of the list services *)

Module CreateListStateProps.
Record t (V : Type) := {
  selectedKeys : Accessor (option V);
  defaultSelectedKeys : Accessor (option V);
  onSelectionChange : option V;
  allowDuplicateSelectionEvents : Accessor (Result (option V));
  disallowEmptySelection : Accessor (Result (option V));
  selectionBehavior : Accessor (Result (option V));
  selectionMode : Accessor (Result (option V));
  dataSource : Accessor V;
  getKey : Accessor (option V);
  getTextValue : Accessor (option V);
  getIsDisabled : Accessor (option V);
  getSectionChildren : Accessor (option V);
  getIsSection : Accessor (option V);
}.
Arguments selectedKeys {V} _.
Arguments defaultSelectedKeys {V} _.
Arguments onSelectionChange {V} _.
Arguments allowDuplicateSelectionEvents {V} _.
Arguments disallowEmptySelection {V} _.
Arguments selectionBehavior {V} _.
Arguments selectionMode {V} _.
Arguments dataSource {V} _.
Arguments getKey {V} _.
Arguments getTextValue {V} _.
Arguments getIsDisabled {V} _.
Arguments getSectionChildren {V} _.
Arguments getIsSection {V} _.
End CreateListStateProps.

Module CreateSelectableListProps.
Record t (V Collection SelectionManager : Type) := {
  selectionManager : Accessor (Result SelectionManager);
  collection : Accessor (Result Collection);
  autoFocus : Accessor (Result (option V));
  shouldFocusWrap : Accessor (Result (option V));
  keyboardDelegate : Accessor (option V);
  disallowEmptySelection : Accessor (Result (option V));
  selectOnFocus : Accessor (Result (option V));
  disallowTypeAhead : Accessor (Result (option V));
  shouldUseVirtualFocus : Accessor (Result (option V));
  allowsTabNavigation : Accessor (Result (option V));
  isVirtualized : Accessor (option V);
  scrollToKey : Accessor (option V);
  (* the two positional arguments: [() => ref] and
     [() => local.scrollRef?.()] *)
  ref : Accessor (option V);
  scrollRef : Accessor (Result (option V));
}.
Arguments selectionManager {V Collection SelectionManager} _.
Arguments collection {V Collection SelectionManager} _.
Arguments autoFocus {V Collection SelectionManager} _.
Arguments shouldFocusWrap {V Collection SelectionManager} _.
Arguments keyboardDelegate {V Collection SelectionManager} _.
Arguments disallowEmptySelection {V Collection SelectionManager} _.
Arguments selectOnFocus {V Collection SelectionManager} _.
Arguments disallowTypeAhead {V Collection SelectionManager} _.
Arguments shouldUseVirtualFocus {V Collection SelectionManager} _.
Arguments allowsTabNavigation {V Collection SelectionManager} _.
Arguments isVirtualized {V Collection SelectionManager} _.
Arguments scrollToKey {V Collection SelectionManager} _.
Arguments ref {V Collection SelectionManager} _.
Arguments scrollRef {V Collection SelectionManager} _.
End CreateSelectableListProps.

(** What [createSelectableList] returns, as far as [ListboxRoot] reads it. *)
Module SelectableList.
Record t (V : Type) := {
  tabIndex : Accessor (option V);
  onKeyDown : V;
  onMouseDown : V;
  onFocusIn : V;
  onFocusOut : V;
}.
Arguments tabIndex {V} _.
Arguments onKeyDown {V} _.
Arguments onMouseDown {V} _.
Arguments onFocusIn {V} _.
Arguments onFocusOut {V} _.
End SelectableList.

(** [ListboxContextValue], as [ListboxRoot] fills it. *)
Module ListboxContextValue.
Record t (V : Type) := {
  listState : Accessor (option V);
  generateId : string -> string;
  shouldUseVirtualFocus : Accessor (option V);
  shouldSelectOnPressUp : Accessor (option V);
  shouldFocusOnHover : Accessor (option V);
  isVirtualized : Accessor (option V);
}.
Arguments listState {V} _.
Arguments generateId {V} _.
Arguments shouldUseVirtualFocus {V} _.
Arguments shouldSelectOnPressUp {V} _.
Arguments shouldFocusOnHover {V} _.
Arguments isVirtualized {V} _.
End ListboxContextValue.

(** The members of the select context that [SelectListbox] reads. *)
Module SelectContextValue.
Record t (V LS : Type) := {
  generateId : string -> string;
  setListboxRef : V;
  listState : Accessor LS;
  isVirtualized : Accessor (option V);
  autoFocus : Accessor (option V);
  listboxAriaLabelledBy : Accessor (option V);
}.
Arguments generateId {V LS} _.
Arguments setListboxRef {V LS} _.
Arguments listState {V LS} _.
Arguments isVirtualized {V LS} _.
Arguments autoFocus {V LS} _.
Arguments listboxAriaLabelledBy {V LS} _.
End SelectContextValue.

(** ** Props objects *)

(** A props object: property name to value. *)
Abbreviation Props V := (gmap string V).

Section PropsOps.
Context {V : Type}.

(** An object literal [{ k1: v1, ..., kn: vn }]; a field whose value is
    [undefined] reads as a missing one.  A later field of the same name
    wins. *)
Definition object (fields : list (string * option V)) : Props V :=
  foldl (fun o kv => match kv.2 with
                     | Some v => <[kv.1 := v]> o
                     | None => delete kv.1 o
                     end) ∅ fields.

(** [mergeProps] of solid-js, which also implements the JSX spread
    [<C a={x} {...others} />]: reading a property of the merged object
    gives the value of the last source in which it is not [undefined]. *)
Definition mergeProps (sources : list (Props V)) : Props V :=
  foldl (fun merged source => source ∪ merged) ∅ sources.

(** Modelled from the spec: [mergeDefaultProps] belongs to the utilities
    package [@kobalte/utils], whose code is not part of the two files
    embedded here.  A prop supplied by the caller takes precedence over
    its default; the default applies when the prop is absent. *)
Definition mergeDefaultProps (defaultProps props : Props V) : Props V :=
  mergeProps [defaultProps; props].

(** [splitProps(props, keys)] of solid-js: the first object holds the
    listed properties of [props], the second one all the others. *)
Definition splitProps (props : Props V) (keys : list string)
  : Props V * Props V :=
  (filter (fun kv => kv.1 ∈ keys) props,
   filter (fun kv => kv.1 ∉ keys) props).

End PropsOps.

(** ** Framework services *)

(** The services [ListboxRoot] imports from [../list], [../selection],
    [@kobalte/utils] and solid-js, and the behaviour of the functions a
    caller passes in.  Their code lies outside the two components; the
    components are verified for every implementation of them. *)
Class Framework (Collection SelectionManager : Type) := {
  (** [selectionManager.selectionMode()] *)
  selectionMode : SelectionManager -> string;
  createListState :
    CreateListStateProps.t (Value Collection SelectionManager) ->
    ListState Collection SelectionManager;
  createSelectableList :
    CreateSelectableListProps.t (Value Collection SelectionManager)
      Collection SelectionManager ->
    SelectableList.t (Value Collection SelectionManager);
  (** [access(v)]: unwraps a value that may be an accessor *)
  access :
    option (Value Collection SelectionManager) ->
    Result (option (Value Collection SelectionManager));
  composeEventHandlers :
    list (option (Value Collection SelectionManager)) ->
    Value Collection SelectionManager;
  mergeRefs :
    list (option (Value Collection SelectionManager)) ->
    Value Collection SelectionManager;
  createGenerateId :
    Accessor (option (Value Collection SelectionManager)) -> string -> string;
  (** calling the function [name] on the given arguments *)
  invoke :
    string -> list (option (Value Collection SelectionManager)) ->
    Result (option (Value Collection SelectionManager));
}.

Section Render.
Context {Collection SelectionManager : Type}.
Context `{!Framework Collection SelectionManager}.

Local Abbreviation Value := (Value Collection SelectionManager).
Local Abbreviation ListState := (ListState Collection SelectionManager).

(** *** JavaScript operators *)

(** Truthiness, as tested by [if (v)]. *)
Definition truthy (v : option Value) : bool :=
  match v with
  | None | Some VNull | Some (VBool false) | Some (VNum 0%Z) | Some (VStr "") => false
  | Some _ => true
  end.

(** [v ?? d] *)
Definition nullish_or (v : option Value) (d : Value) : Value :=
  match v with
  | None | Some VNull => d
  | Some x => x
  end.

(** [f?.(args)]: [undefined] when [f] is nullish, the call otherwise; a
    value that is neither nullish nor a function cannot be called. *)
Definition optional_call (f : option Value) (args : list (option Value))
  : Result (option Value) :=
  match f with
  | None | Some VNull => Ok None
  | Some (VFun name) => invoke name args
  | Some _ => Throw (TypeError "not a function")
  end.

(** [listState().selectionManager()]: throws unless [listState()] is a
    list state. *)
Definition call_selectionManager (listState : option Value)
  : Result SelectionManager :=
  match listState with
  | Some (VListState s) => Ok (selectionManager s)
  | _ => Throw (TypeError "listState().selectionManager is not a function")
  end.

(** [listState().collection()] *)
Definition call_collection (listState : option Value) : Result Collection :=
  match listState with
  | Some (VListState s) => Ok (collection s)
  | _ => Throw (TypeError "listState().collection is not a function")
  end.

(** [listState().collection], the accessor itself: a property read, which
    does not throw. *)
Definition get_collection (listState : option Value) : option Value :=
  match listState with
  | Some (VListState s) => Some (VCollectionAccessor (collection s))
  | _ => None
  end.

(** *** Effects and cleanups *)

(** The select root's [listboxId] signal: the id registered with the
    select context, [undefined] when there is none. *)
Definition ListboxIdSignal : Type := option Value.

(** A function registered with [onCleanup]. *)
Definition Cleanup : Type := ListboxIdSignal -> ListboxIdSignal.

(** The state an effect computation runs in: the signal it writes and the
    cleanups its last run has registered, the latest first. *)
Record EffectState := {
  listboxId : ListboxIdSignal;
  cleanups : list Cleanup;
}.

Definition Effect : Type := EffectState -> EffectState.

(** [onCleanup(fn)] of solid-js *)
Definition onCleanup (fn : Cleanup) : Effect :=
  fun st => {| listboxId := listboxId st; cleanups := fn :: cleanups st |}.

(** What solid-js does before it runs a computation again and when it
    disposes of it: the registered cleanups run, and are forgotten. *)
Definition run_cleanups : Effect :=
  fun st => {| listboxId := foldl (fun sig fn => fn sig) (listboxId st) (cleanups st);
               cleanups := [] |}.

(** One run of an effect: the cleanups of the previous run, then the body. *)
Definition run_effect (fn : Effect) : Effect :=
  fun st => fn (run_cleanups st).

(** Modelled from the spec: [registerListboxId] is a member of the select
    context that the select root creates, and the select root is not
    part of the two files embedded here.  It registers the id with the
    select context and returns the function that removes the
    registration. *)
Definition registerListboxId (id : option Value)
  : ListboxIdSignal -> Cleanup * ListboxIdSignal :=
  fun _ => ((fun _ => None), id).

(** *** The render monad *)

(** The framework services a render has called, in call order. *)
Inductive Call :=
| CallCreateUniqueId
| CallCreateListState (args : CreateListStateProps.t Value)
| CallCreateSelectableList
    (args : CreateSelectableListProps.t Value Collection SelectionManager)
| CallCreateEffect (fn : Effect).

Record RenderLog := {
  next_uid : nat;       (* the counter behind [createUniqueId] *)
  calls : list Call;
}.

(** The calls a render has added to the log. *)
Definition new_calls (log log' : RenderLog) : list Call :=
  drop (length (calls log)) (calls log').

Definition Render (A : Type) : Type := RenderLog -> Result A * RenderLog.

#[export] Instance Render_ret : MRet Render :=
  fun A a log => (Ok a, log).

#[export] Instance Render_bind : MBind Render :=
  fun A B f m log =>
    match m log with
    | (Ok a, log') => f a log'
    | (Throw e, log') => (Throw e, log')
    end.

Definition lift {A} (r : Result A) : Render A := fun log => (r, log).

Definition log_call (c : Call) : Render unit :=
  fun log => (Ok tt, {| next_uid := next_uid log; calls := calls log ++ [c] |}).

(** [createUniqueId()] of solid-js: a fresh identifier per call, drawn
    from a counter. *)
Definition createUniqueId : Render string :=
  fun log =>
    (Ok ("cl-" +:+ pretty (next_uid log)),
     {| next_uid := S (next_uid log); calls := calls log ++ [CallCreateUniqueId] |}).

(** [createEffect(fn)] of solid-js: the effect is handed to the scheduler,
    which runs it once the render is over and again when what it reads
    changes. *)
Definition createEffect (fn : Effect) : Render unit :=
  log_call (CallCreateEffect fn).

(** [createMemo(fn)] of solid-js: [fn] runs once when the memo is
    created, and the accessor returned reads the value it computed. *)
Definition createMemo {A} (fn : Render A) : Render (Accessor A) :=
  a ← fn; mret (fun _ : unit => a).

Definition call_createListState (args : CreateListStateProps.t Value)
  : Render ListState :=
  _ ← log_call (CallCreateListState args); mret (createListState args).

Definition call_createSelectableList
    (args : CreateSelectableListProps.t Value Collection SelectionManager)
  : Render (SelectableList.t Value) :=
  _ ← log_call (CallCreateSelectableList args); mret (createSelectableList args).

(** ** [ListboxRoot] *)

(** What [ListboxRoot] returns: the value given to
    [ListboxContext.Provider] and the props given to [Polymorphic]. *)
Record Rendered := {
  context : ListboxContextValue.t Value;
  polymorphic : Props Value;
}.

(** The keys [ListboxRoot] splits off into [local]. *)
Definition ListboxRoot_keys : list string :=
  [ "ref"; "children"; "value"; "defaultValue"; "onValueChange"; "options";
    "optionValue"; "optionTextValue"; "optionDisabled"; "optionGroupChildren";
    "isOptionGroup"; "state"; "keyboardDelegate"; "autoFocus"; "selectionMode";
    "shouldFocusWrap"; "shouldUseVirtualFocus"; "shouldSelectOnPressUp";
    "shouldFocusOnHover"; "allowDuplicateSelectionEvents";
    "disallowEmptySelection"; "selectionBehavior"; "selectOnFocus";
    "disallowTypeAhead"; "allowsTabNavigation"; "isVirtualized";
    "scrollToItem"; "scrollRef"; "onKeyDown"; "onMouseDown"; "onFocusIn";
    "onFocusOut" ].

(** The defaults merged under the caller's props. *)
Definition ListboxRoot_defaults (defaultId : string) : Props Value :=
  object [ ("id", Some (VStr defaultId));
           ("selectionMode", Some (VStr "single"));
           ("isVirtualized", Some (VBool false)) ].

(** The argument of [createListState]. *)
Definition listState_args (local : Props Value) : CreateListStateProps.t Value :=
  {| CreateListStateProps.selectedKeys := fun _ => local !! "value";
     CreateListStateProps.defaultSelectedKeys := fun _ => local !! "defaultValue";
     CreateListStateProps.onSelectionChange := local !! "onValueChange";
     CreateListStateProps.allowDuplicateSelectionEvents :=
       fun _ => access (local !! "allowDuplicateSelectionEvents");
     CreateListStateProps.disallowEmptySelection :=
       fun _ => access (local !! "disallowEmptySelection");
     CreateListStateProps.selectionBehavior :=
       fun _ => access (local !! "selectionBehavior");
     CreateListStateProps.selectionMode :=
       fun _ => access (local !! "selectionMode");
     CreateListStateProps.dataSource :=
       fun _ => nullish_or (local !! "options") (VArr []);
     CreateListStateProps.getKey := fun _ => local !! "optionValue";
     CreateListStateProps.getTextValue := fun _ => local !! "optionTextValue";
     CreateListStateProps.getIsDisabled := fun _ => local !! "optionDisabled";
     CreateListStateProps.getSectionChildren :=
       fun _ => local !! "optionGroupChildren";
     CreateListStateProps.getIsSection := fun _ => local !! "isOptionGroup" |}.

(** The body of the [listState] memo. *)
Definition listState_memo (local : Props Value) : Render (option Value) :=
  if truthy (local !! "state") then mret (local !! "state")
  else s ← call_createListState (listState_args local); mret (Some (VListState s)).

(** The arguments of [createSelectableList].  The element [ref] is
    assigned when the element mounts, after the render: [() => ref]
    reads [undefined] during it. *)
Definition selectableList_args (local : Props Value)
    (listState : Accessor (option Value))
  : CreateSelectableListProps.t Value Collection SelectionManager :=
  {| CreateSelectableListProps.selectionManager :=
       fun _ => call_selectionManager (listState tt);
     CreateSelectableListProps.collection :=
       fun _ => call_collection (listState tt);
     CreateSelectableListProps.autoFocus := fun _ => access (local !! "autoFocus");
     CreateSelectableListProps.shouldFocusWrap :=
       fun _ => access (local !! "shouldFocusWrap");
     CreateSelectableListProps.keyboardDelegate :=
       fun _ => local !! "keyboardDelegate";
     CreateSelectableListProps.disallowEmptySelection :=
       fun _ => access (local !! "disallowEmptySelection");
     CreateSelectableListProps.selectOnFocus :=
       fun _ => access (local !! "selectOnFocus");
     CreateSelectableListProps.disallowTypeAhead :=
       fun _ => access (local !! "disallowTypeAhead");
     CreateSelectableListProps.shouldUseVirtualFocus :=
       fun _ => access (local !! "shouldUseVirtualFocus");
     CreateSelectableListProps.allowsTabNavigation :=
       fun _ => access (local !! "allowsTabNavigation");
     CreateSelectableListProps.isVirtualized := fun _ => local !! "isVirtualized";
     CreateSelectableListProps.scrollToKey := fun _ => local !! "scrollToItem";
     CreateSelectableListProps.ref := fun _ => None;
     CreateSelectableListProps.scrollRef :=
       fun _ => optional_call (local !! "scrollRef") [] |}.

(** The attributes written on the [Polymorphic] element before the
    spread of [others]. *)
Definition ListboxRoot_attrs (local : Props Value)
    (selectableList : SelectableList.t Value) (manager : SelectionManager)
  : Props Value :=
  object [
    ("fallback", Some (VStr "ul"));
    ("ref", Some (mergeRefs [Some (VFun "el => (ref = el)"); local !! "ref"]));
    ("role", Some (VStr "listbox"));
    ("tabIndex", SelectableList.tabIndex selectableList tt);
    ("aria-multiselectable",
       if decide (selectionMode manager = "multiple")
       then Some (VBool true) else None);
    ("onKeyDown", Some (composeEventHandlers
       [local !! "onKeyDown"; Some (SelectableList.onKeyDown selectableList)]));
    ("onMouseDown", Some (composeEventHandlers
       [local !! "onMouseDown"; Some (SelectableList.onMouseDown selectableList)]));
    ("onFocusIn", Some (composeEventHandlers
       [local !! "onFocusIn"; Some (SelectableList.onFocusIn selectableList)]));
    ("onFocusOut", Some (composeEventHandlers
       [local !! "onFocusOut"; Some (SelectableList.onFocusOut selectableList)]))
  ].

Definition ListboxRoot (props : Props Value) : Render Rendered :=
  uid ← createUniqueId;
  let defaultId := "listbox-" +:+ uid in
  let props := mergeDefaultProps (ListboxRoot_defaults defaultId) props in
  let '(local, others) := splitProps props ListboxRoot_keys in
  listState ← createMemo (listState_memo local);
  selectableList ← call_createSelectableList (selectableList_args local listState);
  let context :=
    {| ListboxContextValue.listState := listState;
       ListboxContextValue.generateId := createGenerateId (fun _ => others !! "id");
       ListboxContextValue.shouldUseVirtualFocus :=
         fun _ => props !! "shouldUseVirtualFocus";
       ListboxContextValue.shouldSelectOnPressUp :=
         fun _ => props !! "shouldSelectOnPressUp";
       ListboxContextValue.shouldFocusOnHover :=
         fun _ => props !! "shouldFocusOnHover";
       ListboxContextValue.isVirtualized := fun _ => local !! "isVirtualized" |} in
  manager ← lift (call_selectionManager (listState tt));
  children ← lift (optional_call (local !! "children")
                                 [get_collection (listState tt)]);
  mret {| context := context;
          polymorphic :=
            mergeProps [ ListboxRoot_attrs local selectableList manager;
                         others;
                         object [("children", children)] ] |}.

(** ** [SelectListbox] *)

(** The body of the effect
    [createEffect(() => onCleanup(context.registerListboxId(local.id!)))]. *)
Definition SelectListbox_effect (local : Props Value) : Effect :=
  fun st =>
    let '(cleanup, sig) := registerListboxId (local !! "id") (listboxId st) in
    onCleanup cleanup {| listboxId := sig; cleanups := cleanups st |}.

(** The attributes written on [Listbox.Root] before the spread of
    [others]. *)
Definition SelectListbox_attrs (context : SelectContextValue.t Value ListState)
    (local : Props Value) : Props Value :=
  object [
    ("ref", Some (mergeRefs [Some (SelectContextValue.setListboxRef context);
                             local !! "ref"]));
    ("id", local !! "id");
    ("state", Some (VListState (SelectContextValue.listState context tt)));
    ("isVirtualized", SelectContextValue.isVirtualized context tt);
    ("autoFocus", SelectContextValue.autoFocus context tt);
    ("shouldSelectOnPressUp", Some (VBool true));
    ("shouldFocusOnHover", Some (VBool true));
    ("aria-labelledby", SelectContextValue.listboxAriaLabelledBy context tt)
  ].

(** [SelectListbox] returns one [Listbox.Root] element: the result is the
    props object of that element. *)
Definition SelectListbox (context : SelectContextValue.t Value ListState)
    (props : Props Value) : Render (Props Value) :=
  let props :=
    mergeDefaultProps
      (object [("id", Some (VStr (SelectContextValue.generateId context "listbox")))])
      props in
  let '(local, others) := splitProps props ["ref"; "id"] in
  _ ← createEffect (SelectListbox_effect local);
  mret (mergeProps [SelectListbox_attrs context local; others]).

(** A [SelectListbox] and the [Listbox.Root] it returns, rendered one
    after the other. *)
Definition render_SelectListbox (context : SelectContextValue.t Value ListState)
    (props : Props Value) : Render Rendered :=
  root ← SelectListbox context props; ListboxRoot root.

(** *** The life of a mounted [SelectListbox] *)

(** What happens to a mounted [SelectListbox]: its props change, or it is
    unmounted. *)
Inductive Event :=
| Update (props : Props Value)
| Unmount.

(** [local], as [SelectListbox] computes it from its props. *)
Definition SelectListbox_local (context : SelectContextValue.t Value ListState)
    (props : Props Value) : Props Value :=
  (splitProps
     (mergeDefaultProps
        (object [("id", Some (VStr (SelectContextValue.generateId context "listbox")))])
        props)
     ["ref"; "id"]).1.

(** A [SelectListbox] instance: the props of its last render, [None] once
    it is unmounted, and the state of its effect. *)
Record Mounted := {
  current : option (Props Value);
  effect_state : EffectState;
}.

(** Mounting runs the effect for the first time. *)
Definition mount (context : SelectContextValue.t Value ListState)
    (props : Props Value) (sig : ListboxIdSignal) : Mounted :=
  {| current := Some props;
     effect_state :=
       run_effect (SelectListbox_effect (SelectListbox_local context props))
                  {| listboxId := sig; cleanups := [] |} |}.

(** The effect reads [local.id]: it runs again when the props change, and
    its cleanups run when the instance is unmounted.  Nothing happens to
    an instance that is no longer mounted. *)
Definition step (context : SelectContextValue.t Value ListState)
    (i : Mounted) (e : Event) : Mounted :=
  match current i, e with
  | None, _ => i
  | Some _, Update props =>
      {| current := Some props;
         effect_state :=
           run_effect (SelectListbox_effect (SelectListbox_local context props))
                      (effect_state i) |}
  | Some _, Unmount =>
      {| current := None; effect_state := run_cleanups (effect_state i) |}
  end.

End Render.

Arguments ListboxIdSignal : clear implicits.
Arguments Cleanup : clear implicits.
Arguments EffectState : clear implicits.
Arguments Effect : clear implicits.
Arguments Call : clear implicits.
Arguments RenderLog : clear implicits.
Arguments Render : clear implicits.
Arguments Rendered : clear implicits.
Arguments Event : clear implicits.
Arguments Mounted : clear implicits.

(** ** The [Polymorphic] element *)

(** [isAs] of [../polymorphic]: whether a resolved child is an [As]
    component. *)
Class Polymorphism (Collection SelectionManager : Type) := {
  isAs : Value Collection SelectionManager -> bool;
}.

Section Element.
Context {Collection SelectionManager : Type}.
Context `{!Framework Collection SelectionManager}.
Context `{!Polymorphism Collection SelectionManager}.

Local Abbreviation Value := (Value Collection SelectionManager).
Local Abbreviation ListState := (ListState Collection SelectionManager).

(** Whether the children hold an [As] component: the child itself, or one
    of the children of an array.  No children hold none. *)
Definition has_As (children : option Value) : bool :=
  match children with
  | None => false
  | Some child =>
      isAs child ||
      match child with
      | VArr children => existsb isAs children
      | _ => false
      end
  end.

(** Modelled from the spec: [Polymorphic] belongs to [../polymorphic],
    which is not part of the two files embedded here.  It renders its
    [fallback] element with the props it is given; when [asChild] is set
    it renders as its [As] child instead, and throws when its children
    hold no [As] component.  An element that is rendered is represented
    by the props it is rendered from. *)
Definition Polymorphic (props : Props Value) : Result (Props Value) :=
  if truthy (props !! "asChild") then
    if has_As (props !! "children") then Ok props
    else Throw (Thrown "Polymorphic")
  else Ok props.

(** [ListboxRoot] and the [Polymorphic] element it returns, rendered one
    after the other. *)
Definition render_ListboxRoot (props : Props Value)
  : Render Collection SelectionManager (Rendered Collection SelectionManager) :=
  r ← ListboxRoot props; _ ← lift (Polymorphic (polymorphic r)); mret r.

(** A [SelectListbox], its [Listbox.Root] and the element of that one. *)
Definition render_SelectListbox_element
    (context : SelectContextValue.t Value ListState) (props : Props Value)
  : Render Collection SelectionManager (Rendered Collection SelectionManager) :=
  root ← SelectListbox context props; render_ListboxRoot root.

End Element.

(** ** A concrete framework

    A small implementation of the services, to run the components on
    concrete props: a collection is the list of its options, a selection
    manager is its selection mode, and a function made by the framework
    is named after its parts. *)
Module Demo.

Abbreviation V := (Value (list string) string).

Definition name_of (v : option V) : string :=
  match v with
  | Some (VFun name) => name
  | Some _ => "value"
  | None => "undefined"
  end.

Definition option_name (v : V) : string :=
  match v with
  | VStr s => s
  | _ => "option"
  end.

#[export] Instance framework : Framework (list string) string := {|
  selectionMode := fun manager => manager;
  createListState := fun args =>
    {| collection :=
         match CreateListStateProps.dataSource args tt with
         | VArr xs => option_name <$> xs
         | _ => []
         end;
       selectionManager :=
         match CreateListStateProps.selectionMode args tt with
         | Ok (Some (VStr mode)) => mode
         | _ => "none"
         end |};
  createSelectableList := fun args =>
    {| SelectableList.tabIndex := fun _ => Some (VNum 0);
       SelectableList.onKeyDown := VFun "selectableList.onKeyDown";
       SelectableList.onMouseDown := VFun "selectableList.onMouseDown";
       SelectableList.onFocusIn := VFun "selectableList.onFocusIn";
       SelectableList.onFocusOut := VFun "selectableList.onFocusOut" |};
  access := fun v => Ok v;
  composeEventHandlers := fun handlers =>
    VFun ("compose(" +:+ String.concat "," (name_of <$> handlers) +:+ ")");
  mergeRefs := fun refs =>
    VFun ("mergeRefs(" +:+ String.concat "," (name_of <$> refs) +:+ ")");
  createGenerateId := fun baseId suffix =>
    match baseId tt with
    | Some (VStr base) => base +:+ "-" +:+ suffix
    | _ => "undefined-" +:+ suffix
    end;
  invoke := fun name args =>
    if String.eqb name "thrower" then Throw (Thrown name)
    else Ok (Some (VStr ("result of " +:+ name)));
|}.

#[export] Instance polymorphism : Polymorphism (list string) string := {|
  isAs := fun child =>
    match child with
    | VStr s => String.eqb s "<As>"
    | _ => false
    end;
|}.

Definition log0 : RenderLog (list string) string :=
  {| next_uid := 0; calls := [] |}.

(** A list state made elsewhere, in single selection mode. *)
Definition single_state : ListState (list string) string :=
  {| collection := ["apple"; "banana"]; selectionManager := "single" |}.

(** Props with a [state], and with props the state makes useless. *)
Definition props_with_state : Props V :=
  {[ "state" := VListState single_state;
     "selectionMode" := VStr "multiple";
     "options" := VArr [VStr "beef"];
     "onKeyDown" := VFun "user.onKeyDown" ]}.

(** Props without a [state]. *)
Definition props_multiple : Props V :=
  {[ "selectionMode" := VStr "multiple";
     "options" := VArr [VStr "apple"; VStr "banana"];
     "optionValue" := VStr "value";
     "id" := VStr "fruits";
     "role" := VStr "menu";
     "tabIndex" := VNum 3 ]}.

(** Props that set the ARIA attribute themselves. *)
Definition props_aria : Props V :=
  {[ "state" := VListState single_state;
     "aria-multiselectable" := VBool true ]}.

(** A select context. *)
Definition select_context : SelectContextValue.t V (ListState (list string) string) :=
  {| SelectContextValue.generateId := fun suffix => "select-1-" +:+ suffix;
     SelectContextValue.setListboxRef := VFun "setListboxRef";
     SelectContextValue.listState := fun _ => single_state;
     SelectContextValue.isVirtualized := fun _ => None;
     SelectContextValue.autoFocus := fun _ => Some (VStr "first");
     SelectContextValue.listboxAriaLabelledBy := fun _ => Some (VStr "select-1-label") |}.

(** No prop at all. *)
Definition props_none : Props V := ∅.

(** Props of a [SelectListbox] with a class only. *)
Definition props_class : Props V :=
  {[ "class" := VStr "select__listbox" ]}.

(** Props of a [SelectListbox] that carry a flag of [Listbox.Root]. *)
Definition props_flag : Props V :=
  {[ "class" := VStr "select__listbox";
     "shouldSelectOnPressUp" := VBool false ]}.

(** Props with a [children] function, an option prop, a class and a
    [scrollRef] that is not a function. *)
Definition props_children : Props V :=
  {[ "children" := VFun "renderItems";
     "value" := VArr [VStr "apple"];
     "class" := VStr "fruits";
     "shouldFocusOnHover" := VBool true;
     "scrollRef" := VStr "#list" ]}.

(** Props with a [state] that is not a list state. *)
Definition props_bad_state : Props V :=
  {[ "state" := VStr "open" ]}.

(** Props that ask for the [As] child, and give no children. *)
Definition props_asChild : Props V :=
  {[ "asChild" := VBool true ]}.

(** Props of a [SelectListbox] with the options it picks. *)
Definition props_select : Props V :=
  {[ "children" := VFun "renderItems";
     "scrollToItem" := VFun "scrollTo";
     "aria-labelledby" := VStr "my-label" ]}.

End Demo.

(** * Properties *)

(** ** Reading merged and split props *)

Section PropsFacts.
Context {V : Type}.

Lemma lookup_mergeProps2 (a b : Props V) k :
  mergeProps [a; b] !! k = match b !! k with Some v => Some v | None => a !! k end.
Proof.
  unfold mergeProps; simpl. rewrite !lookup_union, lookup_empty.
  destruct (b !! k), (a !! k); reflexivity.
Qed.

Lemma lookup_mergeProps3 (a b c : Props V) k :
  mergeProps [a; b; c] !! k =
  match c !! k with
  | Some v => Some v
  | None => match b !! k with Some v => Some v | None => a !! k end
  end.
Proof.
  unfold mergeProps; simpl. rewrite !lookup_union, lookup_empty.
  destruct (c !! k), (b !! k), (a !! k); reflexivity.
Qed.

Lemma lookup_mergeDefaultProps (d p : Props V) k :
  mergeDefaultProps d p !! k =
  match p !! k with Some v => Some v | None => d !! k end.
Proof. apply lookup_mergeProps2. Qed.

Lemma lookup_splitProps_local (p : Props V) keys k :
  (splitProps p keys).1 !! k = if decide (k ∈ keys) then p !! k else None.
Proof.
  unfold splitProps; simpl. case_decide as Hk.
  - destruct (p !! k) as [v|] eqn:E.
    + apply map_lookup_filter_Some; auto.
    + apply map_lookup_filter_None; left; exact E.
  - apply map_lookup_filter_None; right; intros v _; exact Hk.
Qed.

Lemma lookup_splitProps_others (p : Props V) keys k :
  (splitProps p keys).2 !! k = if decide (k ∈ keys) then None else p !! k.
Proof.
  unfold splitProps; simpl. case_decide as Hk.
  - apply map_lookup_filter_None; right; intros v _ Hn; exact (Hn Hk).
  - destruct (p !! k) as [v|] eqn:E.
    + apply map_lookup_filter_Some; auto.
    + apply map_lookup_filter_None; left; exact E.
Qed.

(** Reading a property of an object literal: the last field of that name
    decides. *)
Lemma lookup_object_from (fields : list (string * option V)) (o : Props V) k :
  foldl (fun o kv => match kv.2 with
                     | Some v => <[kv.1 := v]> o
                     | None => delete kv.1 o
                     end) o fields !! k =
  foldl (fun found kv => if decide (kv.1 = k) then kv.2 else found)
        (o !! k) fields.
Proof.
  revert o. induction fields as [|[k' v] fields IH]; intros o; [reflexivity|].
  cbn [foldl fst snd]. rewrite IH. f_equal.
  destruct v as [v|]; case_decide as Hk; subst.
  - apply lookup_insert_eq.
  - apply lookup_insert_ne; assumption.
  - apply lookup_delete_eq.
  - apply lookup_delete_ne; assumption.
Qed.

Lemma lookup_object (fields : list (string * option V)) k :
  object fields !! k =
  foldl (fun found kv => if decide (kv.1 = k) then kv.2 else found) None fields.
Proof. unfold object. rewrite lookup_object_from, lookup_empty. reflexivity. Qed.

End PropsFacts.

(** ** One render of [ListboxRoot] *)

Section ListboxRootFacts.
Context {Collection SelectionManager : Type}.
Context `{!Framework Collection SelectionManager}.

Local Abbreviation Value := (Value Collection SelectionManager).
Local Abbreviation ListState := (ListState Collection SelectionManager).
Local Abbreviation RenderLog := (RenderLog Collection SelectionManager).
Local Abbreviation Call := (Call Collection SelectionManager).
Local Abbreviation Rendered := (Rendered Collection SelectionManager).

#[local] Arguments splitProps : simpl never.

Lemma new_calls_app (log : RenderLog) n cs :
  new_calls log {| next_uid := n; calls := calls log ++ cs |} = cs.
Proof. unfold new_calls; simpl. apply drop_app_length. Qed.

Ltac run_render :=
  unfold ListboxRoot, createMemo, listState_memo, call_createListState,
    call_createSelectableList, createUniqueId, log_call, lift,
    mbind, mret, Render_bind, Render_ret;
  cbn [fst snd next_uid calls].

Ltac key_in :=
  apply (proj1 (bool_decide_eq_true _)); vm_compute; reflexivity.
Ltac key_notin :=
  apply (proj1 (bool_decide_eq_false _)); vm_compute; reflexivity.

(** Reading [local.k] for a key of the split list: the caller's prop when
    there is one, the default otherwise. *)
Lemma lookup_local (props : Props Value) defaultId k :
  k ∈ ListboxRoot_keys ->
  (splitProps (mergeDefaultProps (ListboxRoot_defaults defaultId) props)
              ListboxRoot_keys).1 !! k =
  match props !! k with
  | Some v => Some v
  | None => ListboxRoot_defaults defaultId !! k
  end.
Proof.
  intros Hk. rewrite lookup_splitProps_local, decide_True by exact Hk.
  apply lookup_mergeDefaultProps.
Qed.

(** Reading [others.k] for any other key. *)
Lemma lookup_others (props : Props Value) defaultId k :
  k ∉ ListboxRoot_keys ->
  (splitProps (mergeDefaultProps (ListboxRoot_defaults defaultId) props)
              ListboxRoot_keys).2 !! k =
  match props !! k with
  | Some v => Some v
  | None => ListboxRoot_defaults defaultId !! k
  end.
Proof.
  intros Hk. rewrite lookup_splitProps_others, decide_False by exact Hk.
  apply lookup_mergeDefaultProps.
Qed.

(** The equation of one render.  [local] and [others] are the two halves
    of the props merged over the defaults; the list state is the [state]
    prop when it is truthy and the state made by [createListState]
    otherwise; the render throws when the list state has no selection
    manager or when the [children] function throws. *)
Lemma ListboxRoot_run (props : Props Value) (log : RenderLog) :
  let merged :=
    mergeDefaultProps
      (ListboxRoot_defaults ("listbox-" +:+ "cl-" +:+ pretty (next_uid log)))
      props in
  let local := (splitProps merged ListboxRoot_keys).1 in
  let others := (splitProps merged ListboxRoot_keys).2 in
  let ls :=
    if truthy (local !! "state") then local !! "state"
    else Some (VListState (createListState (listState_args local))) in
  let sargs := selectableList_args local (fun _ => ls) in
  let log' :=
    {| next_uid := S (next_uid log);
       calls :=
         calls log ++
         CallCreateUniqueId ::
         (if truthy (local !! "state") then []
          else [CallCreateListState (listState_args local)]) ++
         [CallCreateSelectableList sargs] |} in
  ListboxRoot props log =
  match call_selectionManager ls with
  | Throw e => (Throw e, log')
  | Ok manager =>
      match optional_call (local !! "children") [get_collection ls] with
      | Throw e => (Throw e, log')
      | Ok children =>
          (Ok {| context :=
                   {| ListboxContextValue.listState := fun _ => ls;
                      ListboxContextValue.generateId :=
                        createGenerateId (fun _ => others !! "id");
                      ListboxContextValue.shouldUseVirtualFocus :=
                        fun _ => merged !! "shouldUseVirtualFocus";
                      ListboxContextValue.shouldSelectOnPressUp :=
                        fun _ => merged !! "shouldSelectOnPressUp";
                      ListboxContextValue.shouldFocusOnHover :=
                        fun _ => merged !! "shouldFocusOnHover";
                      ListboxContextValue.isVirtualized :=
                        fun _ => local !! "isVirtualized" |};
                 polymorphic :=
                   mergeProps
                     [ ListboxRoot_attrs local (createSelectableList sargs) manager;
                       others; object [("children", children)] ] |},
           log')
      end
  end.
Proof.
  cbv zeta. run_render.
  destruct (splitProps _ ListboxRoot_keys) as [local others].
  cbn [fst snd].
  destruct (truthy (local !! "state")) eqn:Hstate; cbn beta iota;
    match goal with
    | |- context [call_selectionManager ?l] =>
        destruct (call_selectionManager l) as [mgr|e] eqn:Hmgr
    end;
    try match goal with
    | |- context [optional_call ?f ?a] =>
        destruct (optional_call f a) as [children|e'] eqn:Hchildren
    end;
    cbn [next_uid calls app]; rewrite <- ?app_assoc; reflexivity.
Qed.

Lemma lookup_defaults_other defaultId k :
  k <> "id" -> k <> "selectionMode" -> k <> "isVirtualized" ->
  (ListboxRoot_defaults defaultId : Props Value) !! k = None.
Proof.
  intros H1 H2 H3. unfold ListboxRoot_defaults, object; cbn [foldl fst snd].
  rewrite !lookup_insert_ne by congruence. apply lookup_empty.
Qed.

(** [local.k] for a key of the split list that has no default. *)
Lemma lookup_local_plain (props : Props Value) defaultId k :
  k ∈ ListboxRoot_keys ->
  k <> "selectionMode" -> k <> "isVirtualized" ->
  (splitProps (mergeDefaultProps (ListboxRoot_defaults defaultId) props)
              ListboxRoot_keys).1 !! k = props !! k.
Proof.
  intros Hk H1 H2. rewrite lookup_local by exact Hk.
  destruct (props !! k); [reflexivity|].
  apply lookup_defaults_other; try assumption.
  intros ->. exfalso. revert Hk. key_notin.
Qed.

Ltac local_plain :=
  rewrite ?lookup_local_plain by first [ key_in | discriminate ].

(** The calls of one render, by kind. *)
Lemma new_call_inv (c : Call) (b : bool) args sargs :
  c ∈ CallCreateUniqueId ::
      (if b then [] else [CallCreateListState args]) ++
      [CallCreateSelectableList sargs] ->
  c = CallCreateUniqueId \/
  (b = false /\ c = CallCreateListState args) \/
  c = CallCreateSelectableList sargs.
Proof.
  intros Hin. apply list_elem_of_In in Hin. destruct b; cbn [app In] in Hin.
  - destruct Hin as [<-|[<-|[]]]; auto.
  - destruct Hin as [<-|[<-|[<-|[]]]]; auto.
Qed.

(** A render whose [state] prop is a list state: it makes no list state
    of its own. *)
Lemma ListboxRoot_with_state (props : Props Value) (s : ListState) (log : RenderLog) :
  props !! "state" = Some (VListState s) ->
  (exists sargs,
     new_calls log (ListboxRoot props log).2 =
       [CallCreateUniqueId; CallCreateSelectableList sargs] /\
     CreateSelectableListProps.selectionManager sargs tt = Ok (selectionManager s) /\
     CreateSelectableListProps.collection sargs tt = Ok (collection s)) /\
  (forall r, (ListboxRoot props log).1 = Ok r ->
     ListboxContextValue.listState (context r) tt = Some (VListState s)).
Proof.
  intros Hp. rewrite ListboxRoot_run. cbv zeta. local_plain.
  rewrite Hp. cbn [truthy call_selectionManager].
  destruct (optional_call _ _) as [children|e]; cbn [fst snd];
    rewrite new_calls_app; (split; [eexists; repeat split; reflexivity|]);
    intros r [= <-]; reflexivity.
Qed.

(** *** C1 *)

(** C1.  When the [state] prop is provided, the list state of the
    component is exactly that state: the render calls [createUniqueId]
    and [createSelectableList] and never [createListState]; the
    selectable list and the listbox context read the selection manager
    and the collection of the provided state; and two props objects with
    the same [state] get the same list state, whatever their [value],
    [defaultValue], [onValueChange], [options] and option accessors
    are. *)
Theorem C1_provided_state_is_the_list_state
    (props : Props Value) (s : ListState) (log : RenderLog) :
  props !! "state" = Some (VListState s) ->
  (exists sargs,
     new_calls log (ListboxRoot props log).2 =
       [CallCreateUniqueId; CallCreateSelectableList sargs] /\
     CreateSelectableListProps.selectionManager sargs tt = Ok (selectionManager s) /\
     CreateSelectableListProps.collection sargs tt = Ok (collection s)) /\
  (forall args,
     CallCreateListState args ∉ new_calls log (ListboxRoot props log).2) /\
  (forall r, (ListboxRoot props log).1 = Ok r ->
     ListboxContextValue.listState (context r) tt = Some (VListState s)) /\
  (forall (props2 : Props Value) (log2 : RenderLog) r r2,
     props2 !! "state" = props !! "state" ->
     (ListboxRoot props log).1 = Ok r ->
     (ListboxRoot props2 log2).1 = Ok r2 ->
     ListboxContextValue.listState (context r2) tt =
     ListboxContextValue.listState (context r) tt).
Proof.
  intros Hstate. pose proof ListboxRoot_with_state as Hrun.
  destruct (Hrun props s log Hstate) as [[sargs (Hcalls & Hm & Hc)] Hls].
  repeat split.
  - exists sargs. auto.
  - intros args. rewrite Hcalls. intros Hin.
    apply (new_call_inv _ true args) in Hin as [H|[[H _]|H]]; discriminate H.
  - exact Hls.
  - intros props2 log2 r r2 H2 Hr Hr2. rewrite Hstate in H2.
    destruct (Hrun props2 s log2 H2) as [_ Hls2].
    rewrite (Hls r Hr), (Hls2 r2 Hr2). reflexivity.
Qed.

(** *** C3 *)

(** C3.  When no [state] prop is provided, the render calls
    [createListState] once, and the list state of the component is what
    it returns.  Its [dataSource] reads the [options] prop, or the empty
    array when [options] is undefined; [getKey], [getTextValue],
    [getIsDisabled], [getSectionChildren] and [getIsSection] read the
    props [optionValue], [optionTextValue], [optionDisabled],
    [optionGroupChildren] and [isOptionGroup] as they are. *)
Theorem C3_collection_is_built_from_options
    (props : Props Value) (log : RenderLog) :
  props !! "state" = None ->
  exists args sargs,
    new_calls log (ListboxRoot props log).2 =
      [CallCreateUniqueId; CallCreateListState args;
       CallCreateSelectableList sargs] /\
    CreateListStateProps.dataSource args tt =
      nullish_or (props !! "options") (VArr []) /\
    (props !! "options" = None ->
     CreateListStateProps.dataSource args tt = VArr []) /\
    CreateListStateProps.getKey args tt = props !! "optionValue" /\
    CreateListStateProps.getTextValue args tt = props !! "optionTextValue" /\
    CreateListStateProps.getIsDisabled args tt = props !! "optionDisabled" /\
    CreateListStateProps.getSectionChildren args tt =
      props !! "optionGroupChildren" /\
    CreateListStateProps.getIsSection args tt = props !! "isOptionGroup" /\
    (forall r, (ListboxRoot props log).1 = Ok r ->
       ListboxContextValue.listState (context r) tt =
       Some (VListState (createListState args))).
Proof.
  intros Hstate. rewrite ListboxRoot_run. cbv zeta.
  set (local := (splitProps _ ListboxRoot_keys).1).
  assert (Hl : local !! "state" = None).
  { subst local. local_plain. exact Hstate. }
  rewrite Hl. cbn [truthy call_selectionManager].
  exists (listState_args local). eexists.
  assert (Hcalls : forall (res : Result Rendered) n cs,
             new_calls log (res, {| next_uid := n; calls := calls log ++ cs |}).2 = cs).
  { intros. apply new_calls_app. }
  split; [|split; [|split; [|repeat split]]].
  - destruct (optional_call _ _); apply Hcalls.
  - subst local. cbn [listState_args CreateListStateProps.dataSource].
    local_plain. reflexivity.
  - intros Ho. subst local. cbn [listState_args CreateListStateProps.dataSource].
    local_plain. rewrite Ho. reflexivity.
  - subst local. cbn [listState_args CreateListStateProps.getKey].
    local_plain. reflexivity.
  - subst local. cbn [listState_args CreateListStateProps.getTextValue].
    local_plain. reflexivity.
  - subst local. cbn [listState_args CreateListStateProps.getIsDisabled].
    local_plain. reflexivity.
  - subst local. cbn [listState_args CreateListStateProps.getSectionChildren].
    local_plain. reflexivity.
  - subst local. cbn [listState_args CreateListStateProps.getIsSection].
    local_plain. reflexivity.
  - intros r. destruct (optional_call _ _); cbn [fst]; intros [= <-]. reflexivity.
Qed.

(** *** The props handed to [Polymorphic] *)

(** The spread of [others] comes after the written attributes and before
    the children of the element. *)
Lemma lookup_polymorphic (attrs others : Props Value) children k :
  k <> "children" ->
  mergeProps [attrs; others; object [("children", children)]] !! k =
  match others !! k with Some v => Some v | None => attrs !! k end.
Proof.
  intros Hk. rewrite lookup_mergeProps3, lookup_object. cbn [foldl fst snd].
  rewrite decide_False by congruence. reflexivity.
Qed.

(** A split key never reaches [others]. *)
Lemma lookup_others_split (props : Props Value) k :
  k ∈ ListboxRoot_keys -> (splitProps props ListboxRoot_keys).2 !! k = None.
Proof. intros Hk. rewrite lookup_splitProps_others, decide_True by exact Hk. reflexivity. Qed.

(** What a render that returns has returned. *)
Lemma ListboxRoot_returns (props : Props Value) (log log' : RenderLog) r :
  ListboxRoot props log = (Ok r, log') ->
  let merged :=
    mergeDefaultProps
      (ListboxRoot_defaults ("listbox-" +:+ "cl-" +:+ pretty (next_uid log)))
      props in
  let local := (splitProps merged ListboxRoot_keys).1 in
  let others := (splitProps merged ListboxRoot_keys).2 in
  let ls :=
    if truthy (local !! "state") then local !! "state"
    else Some (VListState (createListState (listState_args local))) in
  let sargs := selectableList_args local (fun _ => ls) in
  exists manager children,
    call_selectionManager ls = Ok manager /\
    optional_call (local !! "children") [get_collection ls] = Ok children /\
    new_calls log log' =
      CallCreateUniqueId ::
      (if truthy (local !! "state") then []
       else [CallCreateListState (listState_args local)]) ++
      [CallCreateSelectableList sargs] /\
    ListboxContextValue.listState (context r) tt = ls /\
    ListboxContextValue.isVirtualized (context r) tt = local !! "isVirtualized" /\
    polymorphic r =
      mergeProps [ ListboxRoot_attrs local (createSelectableList sargs) manager;
                   others; object [("children", children)] ].
Proof.
  rewrite ListboxRoot_run. cbv zeta.
  destruct (call_selectionManager _) as [manager|e]; [|discriminate].
  destruct (optional_call _ _) as [children|e]; [|discriminate].
  intros [= <- <-]. exists manager, children.
  rewrite new_calls_app. repeat split; reflexivity.
Qed.

Lemma selectableList_call_logged (c : Call) (cs : list Call) (log log' : RenderLog) :
  new_calls log log' = CallCreateUniqueId :: cs ++ [c] -> c ∈ new_calls log log'.
Proof. intros ->. set_solver. Qed.

(** *** C5 *)

(** C5.  On the root element, each of [onKeyDown], [onMouseDown],
    [onFocusIn] and [onFocusOut] is [composeEventHandlers] applied to the
    handler supplied by the caller followed by the handler of the
    selectable list, in that order. *)
Theorem C5_handlers_compose_caller_first
    (props : Props Value) (log log' : RenderLog) r :
  ListboxRoot props log = (Ok r, log') ->
  exists sargs,
    CallCreateSelectableList sargs ∈ new_calls log log' /\
    let selectableList := createSelectableList sargs in
    polymorphic r !! "onKeyDown" =
      Some (composeEventHandlers
              [props !! "onKeyDown"; Some (SelectableList.onKeyDown selectableList)]) /\
    polymorphic r !! "onMouseDown" =
      Some (composeEventHandlers
              [props !! "onMouseDown"; Some (SelectableList.onMouseDown selectableList)]) /\
    polymorphic r !! "onFocusIn" =
      Some (composeEventHandlers
              [props !! "onFocusIn"; Some (SelectableList.onFocusIn selectableList)]) /\
    polymorphic r !! "onFocusOut" =
      Some (composeEventHandlers
              [props !! "onFocusOut"; Some (SelectableList.onFocusOut selectableList)]).
Proof.
  intros Hrun. apply ListboxRoot_returns in Hrun. cbv zeta in Hrun.
  destruct Hrun as (manager & children & _ & _ & Hcalls & _ & _ & ->).
  eexists. split; [eapply selectableList_call_logged; exact Hcalls|].
  cbv zeta. unfold ListboxRoot_attrs.
  repeat split;
    rewrite lookup_polymorphic by discriminate;
    rewrite lookup_others_split by key_in;
    rewrite lookup_object; cbn [foldl fst snd];
    repeat (first [ rewrite decide_True by reflexivity
                  | rewrite decide_False by discriminate ]);
    local_plain; reflexivity.
Qed.

(** From [C x = C y] to [x = y], leaving [y] as it is written. *)
Ltac same_call H :=
  match type of H with
  | ?c ?x = ?c ?y =>
      let E := fresh in assert (E : x = y) by congruence; clear H; subst x
  end.

Ltac lookup_attr :=
  unfold ListboxRoot_attrs; rewrite lookup_object; cbn [foldl fst snd];
  repeat (first [ rewrite decide_True by reflexivity
                | rewrite decide_False by discriminate ]).

(** [others.k] for a key outside the split list that has no default. *)
Lemma lookup_others_plain (props : Props Value) defaultId k :
  k ∉ ListboxRoot_keys -> k <> "id" ->
  (splitProps (mergeDefaultProps (ListboxRoot_defaults defaultId) props)
              ListboxRoot_keys).2 !! k = props !! k.
Proof.
  intros Hk Hid. rewrite lookup_others by exact Hk.
  destruct (props !! k); [reflexivity|].
  apply lookup_defaults_other; try assumption; intros ->; apply Hk; key_in.
Qed.

(** *** C8 *)

(** C8.  [role] and [tabIndex] are not split off, and the residual props
    are spread after the attributes the component writes: a [role] or
    [tabIndex] supplied by the caller is the one rendered; without one,
    the role is ["listbox"] and the tabIndex is the one computed by the
    selectable list. *)
Theorem C8_residual_role_and_tabIndex_override
    (props : Props Value) (log log' : RenderLog) r :
  ListboxRoot props log = (Ok r, log') ->
  ("role" ∉ ListboxRoot_keys) /\ ("tabIndex" ∉ ListboxRoot_keys) /\
  (forall v, props !! "role" = Some v -> polymorphic r !! "role" = Some v) /\
  (props !! "role" = None -> polymorphic r !! "role" = Some (VStr "listbox")) /\
  (forall v, props !! "tabIndex" = Some v -> polymorphic r !! "tabIndex" = Some v) /\
  (props !! "tabIndex" = None ->
   exists sargs,
     CallCreateSelectableList sargs ∈ new_calls log log' /\
     polymorphic r !! "tabIndex" =
       SelectableList.tabIndex (createSelectableList sargs) tt).
Proof.
  intros Hrun. apply ListboxRoot_returns in Hrun. cbv zeta in Hrun.
  destruct Hrun as (manager & children & _ & _ & Hcalls & _ & _ & ->).
  split; [key_notin|]. split; [key_notin|].
  repeat split.
  - intros v Hv. rewrite lookup_polymorphic by discriminate.
    rewrite lookup_others_plain by first [key_notin | discriminate].
    rewrite Hv. reflexivity.
  - intros Hv. rewrite lookup_polymorphic by discriminate.
    rewrite lookup_others_plain by first [key_notin | discriminate].
    rewrite Hv. lookup_attr. reflexivity.
  - intros v Hv. rewrite lookup_polymorphic by discriminate.
    rewrite lookup_others_plain by first [key_notin | discriminate].
    rewrite Hv. reflexivity.
  - intros Hv. eexists.
    split; [eapply selectableList_call_logged; exact Hcalls|].
    rewrite lookup_polymorphic by discriminate.
    rewrite lookup_others_plain by first [key_notin | discriminate].
    rewrite Hv. lookup_attr. reflexivity.
Qed.

(** *** C2 *)

(** C2, as amended.  When the caller's props carry no
    [aria-multiselectable] of their own, the attribute of the root
    element is [true] if the selection mode of the selection manager is
    ["multiple"] and absent otherwise, the selection manager being that
    of the [state] prop when one is given; an [aria-multiselectable]
    supplied by the caller is spread after the computed one and is the
    one rendered. *)
Theorem C2_aria_multiselectable_follows_selection_mode
    (props : Props Value) (log log' : RenderLog) r :
  ListboxRoot props log = (Ok r, log') ->
  exists manager,
    call_selectionManager (ListboxContextValue.listState (context r) tt) =
      Ok manager /\
    (forall s, props !! "state" = Some (VListState s) ->
       manager = selectionManager s) /\
    (props !! "aria-multiselectable" = None ->
     polymorphic r !! "aria-multiselectable" =
       if decide (selectionMode manager = "multiple")
       then Some (VBool true) else None) /\
    (forall v, props !! "aria-multiselectable" = Some v ->
       polymorphic r !! "aria-multiselectable" = Some v).
Proof.
  intros Hrun. apply ListboxRoot_returns in Hrun. cbv zeta in Hrun.
  destruct Hrun as (manager & children & Hmgr & _ & _ & Hls & _ & ->).
  exists manager. rewrite Hls. split; [exact Hmgr|]. repeat split.
  - intros s Hs. revert Hmgr. local_plain. rewrite Hs.
    cbn [truthy call_selectionManager]. congruence.
  - intros Hv. rewrite lookup_polymorphic by discriminate.
    rewrite lookup_others_plain by first [key_notin | discriminate].
    rewrite Hv. lookup_attr. reflexivity.
  - intros v Hv. rewrite lookup_polymorphic by discriminate.
    rewrite lookup_others_plain by first [key_notin | discriminate].
    rewrite Hv. reflexivity.
Qed.

(** *** C7 *)

(** The default id of two renders differs when their counters differ. *)
Lemma default_id_inj (n m : nat) :
  "listbox-" +:+ "cl-" +:+ pretty n = "listbox-" +:+ "cl-" +:+ pretty m -> n = m.
Proof.
  intros H. apply (inj (String.app "listbox-")) in H.
  apply (inj (String.app "cl-")) in H. apply (inj pretty) in H. exact H.
Qed.

(** Every render draws one identifier, whether it returns or throws. *)
Lemma ListboxRoot_advances_counter (props : Props Value) (log : RenderLog) :
  next_uid (ListboxRoot props log).2 = S (next_uid log).
Proof.
  rewrite ListboxRoot_run. cbv zeta.
  destruct (call_selectionManager _); [|reflexivity].
  destruct (optional_call _ _); reflexivity.
Qed.

(** The [id] of the root element: the caller's, or else the default id. *)
Lemma ListboxRoot_rendered_id (props : Props Value) (log log' : RenderLog) r :
  ListboxRoot props log = (Ok r, log') ->
  polymorphic r !! "id" =
    Some (match props !! "id" with
          | Some id => id
          | None => VStr ("listbox-" +:+ "cl-" +:+ pretty (next_uid log))
          end).
Proof.
  intros Hr. apply ListboxRoot_returns in Hr. cbv zeta in Hr.
  destruct Hr as (manager & children & _ & _ & _ & _ & _ & ->).
  rewrite lookup_polymorphic by discriminate.
  rewrite lookup_others by key_notin.
  destruct (props !! "id"); reflexivity.
Qed.

(** C7.  An [id], [selectionMode] or [isVirtualized] supplied by the
    caller takes precedence over the default.  Without one, the id is
    ["listbox-"] followed by the identifier [createUniqueId] has returned
    to this instance, which differs from the one of any instance
    rendered at another value of the counter; the selection mode handed
    to [createListState] is ["single"]; and [isVirtualized], in the
    context and in the arguments of [createSelectableList], is [false].
    The render advances the counter, so that the next instance gets
    another identifier. *)
Theorem C7_caller_props_override_defaults
    (props : Props Value) (log log' : RenderLog) r :
  ListboxRoot props log = (Ok r, log') ->
  exists uid,
    (createUniqueId log).1 = Ok uid /\
    polymorphic r !! "id" =
      Some (match props !! "id" with
            | Some id => id
            | None => VStr ("listbox-" +:+ uid)
            end) /\
    (forall args,
       CallCreateListState args ∈ new_calls log log' ->
       CreateListStateProps.selectionMode args tt =
         access (Some (match props !! "selectionMode" with
                       | Some mode => mode
                       | None => VStr "single"
                       end))) /\
    ListboxContextValue.isVirtualized (context r) tt =
      Some (match props !! "isVirtualized" with
            | Some b => b
            | None => VBool false
            end) /\
    (forall sargs,
       CallCreateSelectableList sargs ∈ new_calls log log' ->
       CreateSelectableListProps.isVirtualized sargs tt =
         Some (match props !! "isVirtualized" with
               | Some b => b
               | None => VBool false
               end)) /\
    next_uid log' = S (next_uid log) /\
    (forall (props2 : Props Value) (log2 log2' : RenderLog) r2,
       ListboxRoot props2 log2 = (Ok r2, log2') ->
       next_uid log2 <> next_uid log ->
       props !! "id" = None -> props2 !! "id" = None ->
       polymorphic r2 !! "id" <> polymorphic r !! "id").
Proof.
  intros Hrun.
  pose proof (ListboxRoot_advances_counter props log) as Hcounter.
  rewrite Hrun in Hcounter. cbn [snd] in Hcounter.
  pose proof ListboxRoot_rendered_id as Hid.
  pose proof (Hid _ _ _ _ Hrun) as Hid1.
  apply ListboxRoot_returns in Hrun. cbv zeta in Hrun.
  destruct Hrun as (manager & children & _ & _ & Hcalls & _ & Hvirt & _).
  assert (Hv : forall defaultId,
            (splitProps (mergeDefaultProps (ListboxRoot_defaults defaultId) props)
                        ListboxRoot_keys).1 !! "isVirtualized" =
            Some (match props !! "isVirtualized" with
                  | Some b => b
                  | None => VBool false
                  end)).
  { intros d. rewrite lookup_local by key_in.
    destruct (props !! "isVirtualized"); reflexivity. }
  exists ("cl-" +:+ pretty (next_uid log)).
  split; [reflexivity|]. split; [exact Hid1|]. repeat split.
  - intros args. rewrite Hcalls. intros Hin.
    apply new_call_inv in Hin as [H|[[_ H]|H]]; try discriminate H.
    same_call H. cbn [listState_args CreateListStateProps.selectionMode].
    rewrite lookup_local by key_in.
    destruct (props !! "selectionMode"); reflexivity.
  - rewrite Hvirt. apply Hv.
  - intros sargs. rewrite Hcalls. intros Hin.
    apply new_call_inv in Hin as [H|[[_ H]|H]]; try discriminate H.
    same_call H. apply Hv.
  - exact Hcounter.
  - intros props2 log2 log2' r2 Hrun2 Hne Hp Hp2.
    rewrite (Hid _ _ _ _ Hrun2), Hid1, Hp, Hp2.
    intros H. apply Hne, default_id_inj. congruence.
Qed.

(** *** Without the optional props *)

(** When [children], [scrollRef], [options], [onValueChange],
    [keyboardDelegate] and [scrollToItem] are absent, and [state] is
    falsy or a list state, [ListboxRoot] returns its element: it has no
    children, the data source handed to [createListState] is the empty
    array and its selection callback is undefined, and the scroll
    reference, the keyboard delegate and the scroll function handed to
    [createSelectableList] read as undefined, without throwing. *)
Lemma ListboxRoot_returns_without_optional_props
    (props : Props Value) (log : RenderLog) :
  props !! "children" = None ->
  props !! "scrollRef" = None ->
  props !! "options" = None ->
  props !! "onValueChange" = None ->
  props !! "keyboardDelegate" = None ->
  props !! "scrollToItem" = None ->
  (truthy (props !! "state") = false \/
   exists s, props !! "state" = Some (VListState s)) ->
  exists r log',
    ListboxRoot props log = (Ok r, log') /\
    polymorphic r !! "children" = None /\
    (forall args,
       CallCreateListState args ∈ new_calls log log' ->
       CreateListStateProps.dataSource args tt = VArr [] /\
       CreateListStateProps.onSelectionChange args = None) /\
    (forall sargs,
       CallCreateSelectableList sargs ∈ new_calls log log' ->
       CreateSelectableListProps.scrollRef sargs tt = Ok None /\
       CreateSelectableListProps.keyboardDelegate sargs tt = None /\
       CreateSelectableListProps.scrollToKey sargs tt = None).
Proof.
  intros Hchildren HscrollRef Hoptions Hchange Hdelegate Hscroll Hstate.
  rewrite ListboxRoot_run. cbv zeta.
  set (merged := mergeDefaultProps _ props).
  set (local := (splitProps merged ListboxRoot_keys).1).
  assert (Hplain : forall k, k ∈ ListboxRoot_keys ->
            k <> "selectionMode" -> k <> "isVirtualized" ->
            local !! k = props !! k).
  { intros k. subst local merged. apply lookup_local_plain. }
  assert (Hmgr : exists manager,
            call_selectionManager
              (if truthy (local !! "state") then local !! "state"
               else Some (VListState (createListState (listState_args local))))
            = Ok manager).
  { rewrite Hplain by first [key_in | discriminate].
    destruct Hstate as [Ht | [s ->]]; [rewrite Ht | cbn [truthy]];
      cbn [call_selectionManager]; eauto. }
  destruct Hmgr as [manager ->].
  rewrite (Hplain "children") by first [key_in | discriminate].
  rewrite Hchildren. cbn [optional_call].
  eexists _, _. split; [reflexivity|]. cbn [polymorphic].
  rewrite new_calls_app.
  split; [|split; [intros args Hin; split | intros sargs Hin; repeat split]].
  - rewrite lookup_mergeProps3, lookup_object. cbn [foldl fst snd].
    rewrite decide_True by reflexivity.
    rewrite lookup_others_split by key_in.
    lookup_attr. reflexivity.
  - apply new_call_inv in Hin as [H|[[_ H]|H]]; try discriminate H.
    same_call H. cbn [listState_args CreateListStateProps.dataSource].
    rewrite Hplain by first [key_in | discriminate].
    rewrite Hoptions. reflexivity.
  - apply new_call_inv in Hin as [H|[[_ H]|H]]; try discriminate H.
    same_call H. cbn [listState_args CreateListStateProps.onSelectionChange].
    rewrite Hplain by first [key_in | discriminate].
    exact Hchange.
  - apply new_call_inv in Hin as [H|[[_ H]|H]]; try discriminate H.
    same_call H. cbn [selectableList_args CreateSelectableListProps.scrollRef].
    rewrite Hplain by first [key_in | discriminate].
    rewrite HscrollRef. reflexivity.
  - apply new_call_inv in Hin as [H|[[_ H]|H]]; try discriminate H.
    same_call H.
    cbn [selectableList_args CreateSelectableListProps.keyboardDelegate].
    rewrite Hplain by first [key_in | discriminate].
    exact Hdelegate.
  - apply new_call_inv in Hin as [H|[[_ H]|H]]; try discriminate H.
    same_call H. cbn [selectableList_args CreateSelectableListProps.scrollToKey].
    rewrite Hplain by first [key_in | discriminate].
    exact Hscroll.
Qed.

(** ** More on one render of [ListboxRoot] *)

(** The context of a render that returns. *)
Lemma ListboxRoot_returns_context (props : Props Value) (log log' : RenderLog) r :
  ListboxRoot props log = (Ok r, log') ->
  let merged :=
    mergeDefaultProps
      (ListboxRoot_defaults ("listbox-" +:+ "cl-" +:+ pretty (next_uid log)))
      props in
  ListboxContextValue.generateId (context r) =
    createGenerateId
      (fun _ => (splitProps merged ListboxRoot_keys).2 !! "id") /\
  ListboxContextValue.shouldUseVirtualFocus (context r) tt =
    merged !! "shouldUseVirtualFocus" /\
  ListboxContextValue.shouldSelectOnPressUp (context r) tt =
    merged !! "shouldSelectOnPressUp" /\
  ListboxContextValue.shouldFocusOnHover (context r) tt =
    merged !! "shouldFocusOnHover".
Proof.
  rewrite ListboxRoot_run. cbv zeta.
  destruct (call_selectionManager _) as [manager|e]; [|discriminate].
  destruct (optional_call _ _) as [children|e]; [|discriminate].
  intros [= <- <-]. repeat split; reflexivity.
Qed.

(** The list state of a render that returns is a list state: the [state]
    prop when it is truthy, the one made by [createListState] otherwise. *)
Lemma ListboxRoot_returns_state (props : Props Value) (log log' : RenderLog) r :
  ListboxRoot props log = (Ok r, log') ->
  let merged :=
    mergeDefaultProps
      (ListboxRoot_defaults ("listbox-" +:+ "cl-" +:+ pretty (next_uid log)))
      props in
  let local := (splitProps merged ListboxRoot_keys).1 in
  let others := (splitProps merged ListboxRoot_keys).2 in
  exists s children sargs,
    (if truthy (props !! "state") then props !! "state" = Some (VListState s)
     else s = createListState (listState_args local)) /\
    ListboxContextValue.listState (context r) tt = Some (VListState s) /\
    optional_call (props !! "children") [Some (VCollectionAccessor (collection s))]
      = Ok children /\
    new_calls log log' =
      CallCreateUniqueId ::
      (if truthy (props !! "state") then []
       else [CallCreateListState (listState_args local)]) ++
      [CallCreateSelectableList sargs] /\
    CreateSelectableListProps.selectionManager sargs tt = Ok (selectionManager s) /\
    CreateSelectableListProps.collection sargs tt = Ok (collection s) /\
    (exists listState, sargs = selectableList_args local listState) /\
    polymorphic r =
      mergeProps [ ListboxRoot_attrs local (createSelectableList sargs)
                     (selectionManager s);
                   others; object [("children", children)] ].
Proof.
  intros Hrun. apply ListboxRoot_returns in Hrun. cbv zeta in Hrun.
  destruct Hrun as (manager & children & Hmgr & Hchildren & Hcalls & Hls & _ & Hp).
  revert Hmgr Hchildren Hcalls Hls Hp. local_plain.
  destruct (truthy (props !! "state")) eqn:Htruthy.
  - destruct (props !! "state") as [[| | | | | |s|]|] eqn:Hstate;
      cbn [call_selectionManager]; try discriminate.
    intros [= <-] Hchildren Hcalls Hls Hp.
    eexists s, children, _. cbn [get_collection] in Hchildren.
    repeat split; try eassumption; try reflexivity. eexists; reflexivity.
  - cbn [call_selectionManager get_collection].
    intros [= <-] Hchildren Hcalls Hls Hp.
    eexists _, children, _.
    repeat split; try eassumption; try reflexivity. eexists; reflexivity.
Qed.

Ltac attrs_none :=
  unfold ListboxRoot_attrs; rewrite lookup_object; cbn [foldl fst snd];
  repeat (rewrite decide_False by congruence); reflexivity.

Ltac not_key H := let E := fresh in intros E; apply H; rewrite E; key_in.
Ltac is_key H := let E := fresh in intros E; rewrite E in H; revert H; key_notin.

(** *** X1 *)

(** X1.  Any prop outside the split list reaches the root element as the
    caller has written it, whatever attribute the component writes under
    that name; and apart from [fallback], [role], [tabIndex],
    [aria-multiselectable] and [id], the element has no attribute outside
    the split list that the caller has not passed.  Without a [fallback]
    prop the element falls back to ["ul"]. *)
Theorem X1_residual_props_reach_the_element
    (props : Props Value) (log log' : RenderLog) r :
  ListboxRoot props log = (Ok r, log') ->
  (forall k v, k ∉ ListboxRoot_keys -> props !! k = Some v ->
     polymorphic r !! k = Some v) /\
  (forall k, k ∉ ListboxRoot_keys ->
     k ∉ ["fallback"; "role"; "tabIndex"; "aria-multiselectable"; "id"] ->
     props !! k = None -> polymorphic r !! k = None) /\
  (props !! "fallback" = None -> polymorphic r !! "fallback" = Some (VStr "ul")).
Proof.
  intros Hrun. apply ListboxRoot_returns in Hrun. cbv zeta in Hrun.
  destruct Hrun as (manager & children & _ & _ & _ & _ & _ & ->).
  split; [|split].
  - intros k v Hk Hv.
    assert (k <> "children") by not_key Hk.
    rewrite lookup_polymorphic by assumption.
    rewrite lookup_others by exact Hk. rewrite Hv. reflexivity.
  - intros k Hk Hw Hv.
    assert (k <> "children") by not_key Hk.
    assert (k <> "ref") by not_key Hk.
    assert (k <> "onKeyDown") by not_key Hk.
    assert (k <> "onMouseDown") by not_key Hk.
    assert (k <> "onFocusIn") by not_key Hk.
    assert (k <> "onFocusOut") by not_key Hk.
    assert (k <> "selectionMode") by not_key Hk.
    assert (k <> "isVirtualized") by not_key Hk.
    assert (k <> "fallback") by not_key Hw.
    assert (k <> "role") by not_key Hw.
    assert (k <> "tabIndex") by not_key Hw.
    assert (k <> "aria-multiselectable") by not_key Hw.
    assert (k <> "id") by not_key Hw.
    rewrite lookup_polymorphic by assumption.
    rewrite lookup_others by exact Hk. rewrite Hv.
    rewrite lookup_defaults_other by assumption. attrs_none.
  - intros Hv. rewrite lookup_polymorphic by discriminate.
    rewrite lookup_others_plain by first [key_notin | discriminate].
    rewrite Hv. lookup_attr. reflexivity.
Qed.

(** *** X2 *)

(** X2.  The props of the split list stay inside the component: apart
    from [ref], [children] and the four event handlers, which the
    component writes itself, none of them is an attribute of the root
    element, whatever the caller has passed under that name. *)
Theorem X2_split_props_stay_inside
    (props : Props Value) (log log' : RenderLog) r k :
  ListboxRoot props log = (Ok r, log') ->
  k ∈ ListboxRoot_keys ->
  k ∉ ["ref"; "children"; "onKeyDown"; "onMouseDown"; "onFocusIn"; "onFocusOut"] ->
  polymorphic r !! k = None.
Proof.
  intros Hrun Hk Hw. apply ListboxRoot_returns in Hrun. cbv zeta in Hrun.
  destruct Hrun as (manager & children & _ & _ & _ & _ & _ & ->).
  assert (k <> "children") by not_key Hw.
  assert (k <> "ref") by not_key Hw.
  assert (k <> "onKeyDown") by not_key Hw.
  assert (k <> "onMouseDown") by not_key Hw.
  assert (k <> "onFocusIn") by not_key Hw.
  assert (k <> "onFocusOut") by not_key Hw.
  assert (k <> "fallback") by is_key Hk.
  assert (k <> "role") by is_key Hk.
  assert (k <> "tabIndex") by is_key Hk.
  assert (k <> "aria-multiselectable") by is_key Hk.
  rewrite lookup_polymorphic by assumption.
  rewrite lookup_others_split by exact Hk. attrs_none.
Qed.

(** *** X3 *)

(** X3.  A render that returns has one list state, and it is a list
    state: the context, the selectable list, the ARIA attribute and the
    [children] function all read it.  It is the [state] prop when that
    prop is truthy and the result of the one call of [createListState]
    otherwise.  The children of the element are what the [children]
    function has returned on the collection accessor of that state. *)
Theorem X3_one_list_state_for_all_readers
    (props : Props Value) (log log' : RenderLog) r :
  ListboxRoot props log = (Ok r, log') ->
  exists s sargs,
    ListboxContextValue.listState (context r) tt = Some (VListState s) /\
    CallCreateSelectableList sargs ∈ new_calls log log' /\
    CreateSelectableListProps.selectionManager sargs tt = Ok (selectionManager s) /\
    CreateSelectableListProps.collection sargs tt = Ok (collection s) /\
    (props !! "aria-multiselectable" = None ->
     polymorphic r !! "aria-multiselectable" =
       if decide (selectionMode (selectionManager s) = "multiple")
       then Some (VBool true) else None) /\
    optional_call (props !! "children") [Some (VCollectionAccessor (collection s))]
      = Ok (polymorphic r !! "children") /\
    (truthy (props !! "state") = true -> props !! "state" = Some (VListState s)) /\
    (truthy (props !! "state") = false ->
     exists args,
       CallCreateListState args ∈ new_calls log log' /\ s = createListState args).
Proof.
  intros Hrun. apply ListboxRoot_returns_state in Hrun. cbv zeta in Hrun.
  destruct Hrun as (s & children & sargs & Hstate & Hls & Hchildren & Hcalls
                    & Hmanager & Hcollection & _ & ->).
  exists s, sargs.
  split; [exact Hls|].
  split; [eapply selectableList_call_logged; exact Hcalls|].
  split; [exact Hmanager|]. split; [exact Hcollection|].
  split; [|split; [|split]].
  - intros Hv. rewrite lookup_polymorphic by discriminate.
    rewrite lookup_others_plain by first [key_notin | discriminate].
    rewrite Hv. lookup_attr. reflexivity.
  - rewrite Hchildren. f_equal.
    rewrite lookup_mergeProps3, lookup_object. cbn [foldl fst snd].
    rewrite decide_True by reflexivity.
    destruct children; [reflexivity|].
    rewrite lookup_others_split by key_in. lookup_attr. reflexivity.
  - intros Ht. rewrite Ht in Hstate. exact Hstate.
  - intros Ht. rewrite Ht in Hstate, Hcalls. eexists. split; [|exact Hstate].
    rewrite Hcalls. set_solver.
Qed.

(** *** The outcome of [ListboxRoot] *)

(** [ListboxRoot] throws in two cases only.  When the [state] prop is
    truthy and is not a list state, it throws a type error, whatever the
    other props are.  Otherwise it throws exactly what the call of the
    [children] prop on the collection accessor of the list state throws,
    and returns its element when that call returns. *)
Lemma ListboxRoot_outcome (props : Props Value) (log : RenderLog) :
  (truthy (props !! "state") = true ->
   (forall s, props !! "state" <> Some (VListState s)) ->
   (ListboxRoot props log).1 =
     Throw (TypeError "listState().selectionManager is not a function")) /\
  (truthy (props !! "state") = false \/
   (exists s, props !! "state" = Some (VListState s)) ->
   exists s,
     (forall s', props !! "state" = Some (VListState s') -> s' = s) /\
     (forall e,
        (ListboxRoot props log).1 = Throw e <->
        optional_call (props !! "children")
                      [Some (VCollectionAccessor (collection s))] = Throw e) /\
     ((exists r, (ListboxRoot props log).1 = Ok r) <->
      (exists children,
         optional_call (props !! "children")
                       [Some (VCollectionAccessor (collection s))] = Ok children))).
Proof.
  split.
  - intros Ht Hs. rewrite ListboxRoot_run. cbv zeta. local_plain. rewrite Ht.
    destruct (props !! "state") as [[| | | | | |s|]|] eqn:Hstate;
      try reflexivity.
    exfalso. exact (Hs s eq_refl).
  - intros Hstate. rewrite ListboxRoot_run. cbv zeta. local_plain.
    set (created := createListState _).
    assert (Hls : exists s,
              (forall s', props !! "state" = Some (VListState s') -> s' = s) /\
              (if truthy (props !! "state") then props !! "state"
               else Some (VListState created)) = Some (VListState s)).
    { destruct Hstate as [Ht | [s Hs]].
      - rewrite Ht. exists created. split; [|reflexivity].
        intros s' Hs'. rewrite Hs' in Ht. discriminate Ht.
      - rewrite Hs. cbn [truthy]. exists s. split; [congruence | reflexivity]. }
    destruct Hls as (s & Hunique & ->). exists s. split; [exact Hunique|].
    cbn [call_selectionManager get_collection].
    destruct (optional_call _ _) as [children|e']; cbn [fst]; split.
    + intros e. split; discriminate.
    + split; eauto.
    + intros e. split; congruence.
    + split; intros [x Hx]; discriminate Hx.
Qed.

(** *** The calls of [ListboxRoot] *)


(** *** X6 *)

(** X6.  The ids the listbox context generates are based on the id
    rendered on the root element: the accessor handed to
    [createGenerateId] reads that id, the caller's or else the default
    one. *)
Theorem X6_generated_ids_follow_the_rendered_id
    (props : Props Value) (log log' : RenderLog) r :
  ListboxRoot props log = (Ok r, log') ->
  exists baseId,
    ListboxContextValue.generateId (context r) = createGenerateId baseId /\
    baseId tt = polymorphic r !! "id" /\
    baseId tt =
      Some (match props !! "id" with
            | Some id => id
            | None => VStr ("listbox-" +:+ "cl-" +:+ pretty (next_uid log))
            end).
Proof.
  intros Hrun.
  pose proof (ListboxRoot_returns_context _ _ _ _ Hrun) as (Hgen & _).
  pose proof (ListboxRoot_rendered_id _ _ _ _ Hrun) as Hid.
  eexists. split; [exact Hgen|]. cbv beta. rewrite Hid.
  rewrite lookup_others by key_notin.
  destruct (props !! "id"); split; reflexivity.
Qed.

(** *** X7 *)

(** X7.  The context gives [shouldUseVirtualFocus],
    [shouldSelectOnPressUp] and [shouldFocusOnHover] as the caller has
    written them, with no default, while the selectable list reads
    [shouldUseVirtualFocus] through [access]. *)
Theorem X7_context_flags_are_the_props
    (props : Props Value) (log log' : RenderLog) r :
  ListboxRoot props log = (Ok r, log') ->
  ListboxContextValue.shouldUseVirtualFocus (context r) tt =
    props !! "shouldUseVirtualFocus" /\
  ListboxContextValue.shouldSelectOnPressUp (context r) tt =
    props !! "shouldSelectOnPressUp" /\
  ListboxContextValue.shouldFocusOnHover (context r) tt =
    props !! "shouldFocusOnHover" /\
  exists sargs,
    CallCreateSelectableList sargs ∈ new_calls log log' /\
    CreateSelectableListProps.shouldUseVirtualFocus sargs tt =
      access (props !! "shouldUseVirtualFocus").
Proof.
  intros Hrun.
  pose proof (ListboxRoot_returns_context _ _ _ _ Hrun) as (_ & Hv & Hp & Hh).
  cbv zeta in Hv, Hp, Hh.
  rewrite lookup_mergeDefaultProps in Hv, Hp, Hh.
  rewrite lookup_defaults_other in Hv, Hp, Hh by discriminate.
  assert (Heta : forall o : option Value,
            match o with Some v => Some v | None => None end = o)
    by (intros []; reflexivity).
  rewrite Heta in Hv, Hp, Hh.
  split; [exact Hv|]. split; [exact Hp|]. split; [exact Hh|].
  apply ListboxRoot_returns_state in Hrun. cbv zeta in Hrun.
  destruct Hrun as (s & children & sargs & _ & _ & _ & Hcalls & _ & _
                    & [listState ->] & _).
  eexists. split; [eapply selectableList_call_logged; exact Hcalls|].
  cbn [selectableList_args CreateSelectableListProps.shouldUseVirtualFocus].
  local_plain. reflexivity.
Qed.

(** *** X8 *)

(** X8.  The selectable list reads the caller's props: [autoFocus],
    [shouldFocusWrap], [selectOnFocus], [disallowTypeAhead] and
    [allowsTabNavigation] through [access]; [keyboardDelegate] and
    [scrollToItem] as they are; no element during the render; and the
    scroll element by calling [scrollRef] when it is forced, not during
    the render: [undefined] without a [scrollRef], a type error for a
    [scrollRef] that is not a function. *)
Theorem X8_selectable_list_reads_the_props
    (props : Props Value) (log log' : RenderLog) r :
  ListboxRoot props log = (Ok r, log') ->
  exists sargs,
    CallCreateSelectableList sargs ∈ new_calls log log' /\
    CreateSelectableListProps.autoFocus sargs tt = access (props !! "autoFocus") /\
    CreateSelectableListProps.shouldFocusWrap sargs tt =
      access (props !! "shouldFocusWrap") /\
    CreateSelectableListProps.selectOnFocus sargs tt =
      access (props !! "selectOnFocus") /\
    CreateSelectableListProps.disallowTypeAhead sargs tt =
      access (props !! "disallowTypeAhead") /\
    CreateSelectableListProps.allowsTabNavigation sargs tt =
      access (props !! "allowsTabNavigation") /\
    CreateSelectableListProps.keyboardDelegate sargs tt =
      props !! "keyboardDelegate" /\
    CreateSelectableListProps.scrollToKey sargs tt = props !! "scrollToItem" /\
    CreateSelectableListProps.ref sargs tt = None /\
    CreateSelectableListProps.scrollRef sargs tt =
      optional_call (props !! "scrollRef") [] /\
    (props !! "scrollRef" = None ->
     CreateSelectableListProps.scrollRef sargs tt = Ok None) /\
    (forall s, props !! "scrollRef" = Some (VStr s) ->
     CreateSelectableListProps.scrollRef sargs tt =
       Throw (TypeError "not a function")).
Proof.
  intros Hrun. apply ListboxRoot_returns_state in Hrun. cbv zeta in Hrun.
  destruct Hrun as (s & children & sargs & _ & _ & _ & Hcalls & _ & _
                    & [listState ->] & _).
  eexists. split; [eapply selectableList_call_logged; exact Hcalls|].
  cbn [selectableList_args CreateSelectableListProps.autoFocus
       CreateSelectableListProps.shouldFocusWrap
       CreateSelectableListProps.selectOnFocus
       CreateSelectableListProps.disallowTypeAhead
       CreateSelectableListProps.allowsTabNavigation
       CreateSelectableListProps.keyboardDelegate
       CreateSelectableListProps.scrollToKey
       CreateSelectableListProps.ref
       CreateSelectableListProps.scrollRef].
  local_plain.
  split; [reflexivity|]. split; [reflexivity|]. split; [reflexivity|].
  split; [reflexivity|]. split; [reflexivity|]. split; [reflexivity|].
  split; [reflexivity|]. split; [reflexivity|]. split; [reflexivity|].
  split.
  - intros ->. reflexivity.
  - intros str ->. reflexivity.
Qed.

(** *** X9 *)

(** X9.  When the [state] prop is falsy, the selection state is made from
    the caller's props: [value] and [defaultValue] are the selected and
    the default selected keys, [onValueChange] is the selection callback,
    and [allowDuplicateSelectionEvents], [selectionBehavior] and
    [disallowEmptySelection] are read through [access]; the list state
    and the selectable list are given the same [disallowEmptySelection]. *)
Theorem X9_selection_state_reads_the_props
    (props : Props Value) (log : RenderLog) :
  truthy (props !! "state") = false ->
  exists args sargs,
    new_calls log (ListboxRoot props log).2 =
      [CallCreateUniqueId; CallCreateListState args;
       CallCreateSelectableList sargs] /\
    CreateListStateProps.selectedKeys args tt = props !! "value" /\
    CreateListStateProps.defaultSelectedKeys args tt = props !! "defaultValue" /\
    CreateListStateProps.onSelectionChange args = props !! "onValueChange" /\
    CreateListStateProps.allowDuplicateSelectionEvents args tt =
      access (props !! "allowDuplicateSelectionEvents") /\
    CreateListStateProps.selectionBehavior args tt =
      access (props !! "selectionBehavior") /\
    CreateListStateProps.disallowEmptySelection args tt =
      access (props !! "disallowEmptySelection") /\
    CreateSelectableListProps.disallowEmptySelection sargs tt =
      CreateListStateProps.disallowEmptySelection args tt.
Proof.
  intros Ht. rewrite ListboxRoot_run. cbv zeta.
  set (local := (splitProps _ ListboxRoot_keys).1).
  assert (Hplain : forall k, k ∈ ListboxRoot_keys ->
            k <> "selectionMode" -> k <> "isVirtualized" ->
            local !! k = props !! k).
  { intros k. subst local. apply lookup_local_plain. }
  rewrite (Hplain "state") by first [key_in | discriminate]. rewrite Ht.
  eexists _, _.
  split.
  { destruct (call_selectionManager _); [destruct (optional_call _ _)|];
      cbn [snd]; apply new_calls_app. }
  cbn [listState_args selectableList_args
       CreateListStateProps.selectedKeys
       CreateListStateProps.defaultSelectedKeys
       CreateListStateProps.onSelectionChange
       CreateListStateProps.allowDuplicateSelectionEvents
       CreateListStateProps.selectionBehavior
       CreateListStateProps.disallowEmptySelection
       CreateSelectableListProps.disallowEmptySelection].
  rewrite !Hplain by first [key_in | discriminate].
  repeat split; reflexivity.
Qed.

(** A render only adds to the log. *)
Lemma ListboxRoot_extends_log (props : Props Value) (log : RenderLog) :
  calls (ListboxRoot props log).2 =
  (calls log ++ new_calls log (ListboxRoot props log).2)%list.
Proof.
  rewrite ListboxRoot_run. cbv zeta.
  destruct (call_selectionManager _); [destruct (optional_call _ _)|];
    cbn [snd]; rewrite new_calls_app; reflexivity.
Qed.

(** The outcome of a render whose [state] prop is a list state is the
    outcome of the call of [children]. *)
Lemma ListboxRoot_outcome_with_state (props : Props Value) (s : ListState)
    (log : RenderLog) :
  props !! "state" = Some (VListState s) ->
  (forall e,
     (ListboxRoot props log).1 = Throw e <->
     optional_call (props !! "children")
                   [Some (VCollectionAccessor (collection s))] = Throw e) /\
  ((exists r, (ListboxRoot props log).1 = Ok r) <->
   (exists children,
      optional_call (props !! "children")
                    [Some (VCollectionAccessor (collection s))] = Ok children)).
Proof.
  intros Hs. rewrite ListboxRoot_run. cbv zeta. local_plain. rewrite Hs.
  cbn [truthy call_selectionManager get_collection].
  destruct (optional_call _ _) as [children|e']; cbn [fst]; split.
  - intros e. split; discriminate.
  - split; eauto.
  - intros e. split; congruence.
  - split; intros [x Hx]; discriminate Hx.
Qed.

(** [asChild] is not split off: the element gets the caller's. *)
Lemma polymorphic_asChild (props : Props Value) (log log' : RenderLog) r :
  ListboxRoot props log = (Ok r, log') ->
  polymorphic r !! "asChild" = props !! "asChild".
Proof.
  intros Hrun. apply ListboxRoot_returns in Hrun. cbv zeta in Hrun.
  destruct Hrun as (manager & children & _ & _ & _ & _ & _ & ->).
  rewrite lookup_polymorphic by discriminate.
  rewrite lookup_others_plain by first [key_notin | discriminate].
  destruct (props !! "asChild"); [reflexivity|]. lookup_attr. reflexivity.
Qed.

End ListboxRootFacts.

(** ** [SelectListbox] *)

Section SelectListboxFacts.
Context {Collection SelectionManager : Type}.
Context `{!Framework Collection SelectionManager}.

Local Abbreviation Value := (Value Collection SelectionManager).
Local Abbreviation ListState := (ListState Collection SelectionManager).
Local Abbreviation RenderLog := (RenderLog Collection SelectionManager).
Local Abbreviation Call := (Call Collection SelectionManager).
Local Abbreviation Rendered := (Rendered Collection SelectionManager).
Local Abbreviation SelectContext := (SelectContextValue.t Value ListState).
Local Abbreviation Mounted := (Mounted Collection SelectionManager).

#[local] Arguments splitProps : simpl never.

(** The equation of one render of [SelectListbox]: it never throws. *)
Lemma SelectListbox_run (context : SelectContext) (props : Props Value)
    (log : RenderLog) :
  let local := SelectListbox_local context props in
  exists others,
    (forall k, k <> "ref" -> k <> "id" -> others !! k = props !! k) /\
    others !! "id" = None /\
    SelectListbox context props log =
    (Ok (mergeProps [SelectListbox_attrs context local; others]),
     {| next_uid := next_uid log;
        calls := calls log ++ [CallCreateEffect (SelectListbox_effect local)] |}).
Proof.
  cbv zeta. unfold SelectListbox, SelectListbox_local.
  set (merged := mergeDefaultProps _ props).
  exists (splitProps merged ["ref"; "id"]).2. split; [|split].
  - intros k Href Hid. rewrite lookup_splitProps_others, decide_False.
    + subst merged. rewrite lookup_mergeDefaultProps, lookup_object.
      cbn [foldl fst snd]. rewrite decide_False by congruence.
      destruct (props !! k); reflexivity.
    + intros Hin. apply list_elem_of_In in Hin. cbn [In] in Hin.
      destruct Hin as [<-|[<-|[]]]; congruence.
  - rewrite lookup_splitProps_others, decide_True; [reflexivity|].
    apply (proj1 (bool_decide_eq_true _)). vm_compute. reflexivity.
  - destruct (splitProps merged ["ref"; "id"]) as [local others]. reflexivity.
Qed.

(** [local.id]: the [id] prop, or else the id generated by the context. *)
Lemma SelectListbox_local_id (context : SelectContext) (props : Props Value) :
  SelectListbox_local context props !! "id" =
  Some (match props !! "id" with
        | Some id => id
        | None => VStr (SelectContextValue.generateId context "listbox")
        end).
Proof.
  unfold SelectListbox_local. rewrite lookup_splitProps_local, decide_True.
  - rewrite lookup_mergeDefaultProps, lookup_object. cbn [foldl fst snd].
    rewrite decide_True by reflexivity. destruct (props !! "id"); reflexivity.
  - apply (proj1 (bool_decide_eq_true _)). vm_compute. reflexivity.
Qed.

Ltac root_attr :=
  unfold SelectListbox_attrs; rewrite lookup_object; cbn [foldl fst snd];
  repeat (first [ rewrite decide_True by reflexivity
                | rewrite decide_False by discriminate ]).

(** *** C4 *)

(** C4, as amended.  For props that carry none of [state],
    [isVirtualized], [autoFocus], [shouldSelectOnPressUp] and
    [shouldFocusOnHover], [SelectListbox] returns a [Listbox.Root] whose
    [state] is the list state of the select context, whose
    [isVirtualized] and [autoFocus] are those of the context and whose
    [shouldSelectOnPressUp] and [shouldFocusOnHover] are [true]; neither
    [SelectListbox] nor the [Listbox.Root] it returns calls
    [createListState], and the list state of that [Listbox.Root] is the
    one of the context. *)
Theorem C4_SelectListbox_passes_the_select_context
    (selectContext : SelectContext) (props : Props Value) (log : RenderLog) :
  props !! "state" = None ->
  props !! "isVirtualized" = None ->
  props !! "autoFocus" = None ->
  props !! "shouldSelectOnPressUp" = None ->
  props !! "shouldFocusOnHover" = None ->
  exists root log',
    SelectListbox selectContext props log = (Ok root, log') /\
    root !! "state" = Some (VListState (SelectContextValue.listState selectContext tt)) /\
    root !! "isVirtualized" = SelectContextValue.isVirtualized selectContext tt /\
    root !! "autoFocus" = SelectContextValue.autoFocus selectContext tt /\
    root !! "shouldSelectOnPressUp" = Some (VBool true) /\
    root !! "shouldFocusOnHover" = Some (VBool true) /\
    (forall args, CallCreateListState args ∉ new_calls log log') /\
    (forall args,
       CallCreateListState args ∉
       new_calls log' (render_SelectListbox selectContext props log).2) /\
    (forall r, (render_SelectListbox selectContext props log).1 = Ok r ->
       ListboxContextValue.listState (context r) tt =
       Some (VListState (SelectContextValue.listState selectContext tt))).
Proof.
  intros Hstate Hvirt Hfocus Hpress Hhover.
  unfold render_SelectListbox, mbind, Render_bind.
  destruct (SelectListbox_run selectContext props log) as (others & Hothers & _ & ->).
  cbv zeta.
  set (attrs := SelectListbox_attrs selectContext _).
  set (log1 := {| next_uid := _; calls := _ |}).
  assert (Hlook : forall k, k <> "ref" -> k <> "id" -> props !! k = None ->
            mergeProps [attrs; others] !! k = attrs !! k).
  { intros k H1 H2 Hk. rewrite lookup_mergeProps2, Hothers, Hk by assumption.
    reflexivity. }
  assert (Hs : mergeProps [attrs; others] !! "state" =
               Some (VListState (SelectContextValue.listState selectContext tt))).
  { rewrite Hlook by first [discriminate | assumption].
    subst attrs. root_attr. reflexivity. }
  exists (mergeProps [attrs; others]), log1. split; [reflexivity|].
  destruct (ListboxRoot_with_state _ _ log1 Hs) as [(sargs & Hcalls & _) Hls].
  repeat split.
  - exact Hs.
  - rewrite Hlook by first [discriminate | assumption].
    subst attrs. root_attr. reflexivity.
  - rewrite Hlook by first [discriminate | assumption].
    subst attrs. root_attr. reflexivity.
  - rewrite Hlook by first [discriminate | assumption].
    subst attrs. root_attr. reflexivity.
  - rewrite Hlook by first [discriminate | assumption].
    subst attrs. root_attr. reflexivity.
  - intros args. subst log1. rewrite new_calls_app. intros Hin.
    apply list_elem_of_In in Hin. cbn [In] in Hin.
    destruct Hin as [H|[]]; discriminate H.
  - intros args. rewrite Hcalls. intros Hin.
    apply (new_call_inv _ true args) in Hin as [H|[[H _]|H]]; discriminate H.
  - exact Hls.
Qed.

(** *** C9 *)

(** A run of the effect leaves the id it has read in the signal and one
    cleanup, which empties the signal. *)
Lemma run_SelectListbox_effect (local : Props Value)
    (st : EffectState Collection SelectionManager) :
  run_effect (SelectListbox_effect local) st =
  {| listboxId := local !! "id"; cleanups := [fun _ => None] |}.
Proof. reflexivity. Qed.

(** While the instance is mounted, the signal holds the id of the props
    of its last render. *)
Lemma mounted_instance (context : SelectContext) (props0 : Props Value)
    (updates : list (Props Value)) (sig0 : ListboxIdSignal Collection SelectionManager) :
  foldl (step context) (mount context props0 sig0) (Update <$> updates) =
  {| current := Some (default props0 (last updates));
     effect_state :=
       {| listboxId :=
            SelectListbox_local context (default props0 (last updates)) !! "id";
          cleanups := [fun _ => None] |} |}.
Proof.
  induction updates as [|props updates IH] using rev_ind.
  - reflexivity.
  - rewrite fmap_app, foldl_app, IH, last_snoc. reflexivity.
Qed.

(** Nothing happens to an unmounted instance. *)
Lemma unmounted_instance (context : SelectContext) (i : Mounted)
    (events : list (Event Collection SelectionManager)) :
  current i = None -> foldl (step context) i events = i.
Proof.
  intros Hi. induction events as [|e events IH]; [reflexivity|].
  cbn [foldl]. unfold step at 2. rewrite Hi. exact IH.
Qed.

(** C9.  A [SelectListbox] has been mounted with props [props0] and has
    seen the updates [updates].  The id it hands to [Listbox.Root], and
    that [Listbox.Root] renders, is the [id] of its current props or else
    the id generated by the select context; this id is the one registered
    with the select context; the effect that registers it is created by
    every render; the cleanups that run before the effect runs again
    leave no id registered; and once the instance is unmounted no id is
    registered, whatever happens next. *)
Theorem C9_listbox_id_is_registered_while_mounted
    (context : SelectContext) (props0 : Props Value)
    (updates : list (Props Value))
    (sig0 : ListboxIdSignal Collection SelectionManager) :
  let mounted :=
    foldl (step context) (mount context props0 sig0) (Update <$> updates) in
  let props := default props0 (last updates) in
  let id :=
    match props !! "id" with
    | Some id => id
    | None => VStr (SelectContextValue.generateId context "listbox")
    end in
  current mounted = Some props /\
  listboxId (effect_state mounted) = Some id /\
  (forall log : RenderLog,
     exists root log',
       SelectListbox context props log = (Ok root, log') /\
       root !! "id" = Some id /\
       CallCreateEffect (SelectListbox_effect (SelectListbox_local context props))
         ∈ new_calls log log' /\
       (forall r log'', ListboxRoot root log' = (Ok r, log'') ->
          polymorphic r !! "id" = Some id)) /\
  listboxId (run_cleanups (effect_state mounted)) = None /\
  (forall events,
     let unmounted := foldl (step context) (step context mounted Unmount) events in
     current unmounted = None /\
     listboxId (effect_state unmounted) = None).
Proof.
  cbv zeta. rewrite mounted_instance. cbn [current effect_state listboxId].
  set (props := default props0 (last updates)).
  split; [reflexivity|]. split; [apply SelectListbox_local_id|].
  split; [|split].
  - intros log.
    destruct (SelectListbox_run context props log) as (others & _ & Hid & ->).
    cbv zeta. eexists _, _. split; [reflexivity|].
    assert (Hroot : mergeProps
              [SelectListbox_attrs context (SelectListbox_local context props);
               others] !! "id" =
            Some (match props !! "id" with
                  | Some id => id
                  | None => VStr (SelectContextValue.generateId context "listbox")
                  end)).
    { rewrite lookup_mergeProps2, Hid. root_attr. apply SelectListbox_local_id. }
    split; [exact Hroot|]. split.
    + rewrite new_calls_app. set_solver.
    + intros r log'' Hr. rewrite (ListboxRoot_rendered_id _ _ _ _ Hr), Hroot.
      reflexivity.
  - reflexivity.
  - intros events. rewrite unmounted_instance by reflexivity.
    split; reflexivity.
Qed.

(** ** A [SelectListbox] and its [Listbox.Root], end to end *)

Ltac key_in := apply (proj1 (bool_decide_eq_true _)); vm_compute; reflexivity.
Ltac key_notin := apply (proj1 (bool_decide_eq_false _)); vm_compute; reflexivity.

(** The props of the [Listbox.Root]: [ref] and [id] are the written ones;
    under any other name the caller's prop comes first, then the written
    attribute. *)
Lemma SelectListbox_root (context : SelectContext) (props : Props Value)
    (log : RenderLog) :
  exists root effect,
    SelectListbox context props log =
      (Ok root,
       {| next_uid := next_uid log;
          calls := calls log ++ [CallCreateEffect effect] |}) /\
    root !! "ref" =
      Some (mergeRefs [Some (SelectContextValue.setListboxRef context);
                       props !! "ref"]) /\
    forall k, k <> "ref" -> k <> "id" ->
      root !! k =
      match props !! k with
      | Some v => Some v
      | None =>
          SelectListbox_attrs context (SelectListbox_local context props) !! k
      end.
Proof.
  unfold SelectListbox, SelectListbox_local.
  set (merged := mergeDefaultProps _ props).
  exists (mergeProps [SelectListbox_attrs context (splitProps merged ["ref"; "id"]).1;
                      (splitProps merged ["ref"; "id"]).2]),
         (SelectListbox_effect (splitProps merged ["ref"; "id"]).1).
  split; [destruct (splitProps merged ["ref"; "id"]); reflexivity|]. split.
  - rewrite lookup_mergeProps2, lookup_splitProps_others, decide_True by key_in.
    root_attr. rewrite lookup_splitProps_local, decide_True by key_in.
    subst merged. rewrite lookup_mergeDefaultProps, lookup_object.
    cbn [foldl fst snd]. rewrite decide_False by discriminate.
    destruct (props !! "ref"); reflexivity.
  - intros k Href Hid.
    rewrite lookup_mergeProps2, lookup_splitProps_others, decide_False.
    + subst merged. rewrite lookup_mergeDefaultProps, lookup_object.
      cbn [foldl fst snd]. rewrite decide_False by congruence.
      destruct (props !! k); reflexivity.
    + intros Hin. apply list_elem_of_In in Hin. cbn [In] in Hin.
      destruct Hin as [<-|[<-|[]]]; congruence.
Qed.

(** A [SelectListbox] and its [Listbox.Root] that return. *)
Lemma render_SelectListbox_returns (context : SelectContext)
    (props : Props Value) (log log'' : RenderLog) r :
  render_SelectListbox context props log = (Ok r, log'') ->
  exists root effect,
    let log' := {| next_uid := next_uid log;
                   calls := calls log ++ [CallCreateEffect effect] |} in
    ListboxRoot root log' = (Ok r, log'') /\
    new_calls log log'' = CallCreateEffect effect :: new_calls log' log'' /\
    root !! "ref" =
      Some (mergeRefs [Some (SelectContextValue.setListboxRef context);
                       props !! "ref"]) /\
    forall k, k <> "ref" -> k <> "id" ->
      root !! k =
      match props !! k with
      | Some v => Some v
      | None =>
          SelectListbox_attrs context (SelectListbox_local context props) !! k
      end.
Proof.
  unfold render_SelectListbox, mbind, Render_bind.
  destruct (SelectListbox_root context props log)
    as (root & effect & -> & Href & Hroot).
  intros Hrun. exists root, effect. cbv zeta.
  split; [exact Hrun|]. split; [|split; assumption].
  pose proof (ListboxRoot_extends_log root
                {| next_uid := next_uid log;
                   calls := calls log ++ [CallCreateEffect effect] |}) as Hlog.
  rewrite Hrun in Hlog. cbn [snd calls] in Hlog.
  unfold new_calls at 1. rewrite Hlog, <- app_assoc, drop_app_length.
  reflexivity.
Qed.

(** The state handed to [Listbox.Root] when the caller has passed none. *)
Lemma SelectListbox_root_state (context : SelectContext) (props root : Props Value) :
  (forall k, k <> "ref" -> k <> "id" ->
     root !! k =
     match props !! k with
     | Some v => Some v
     | None =>
         SelectListbox_attrs context (SelectListbox_local context props) !! k
     end) ->
  props !! "state" = None ->
  root !! "state" = Some (VListState (SelectContextValue.listState context tt)).
Proof.
  intros Hroot Hstate. rewrite Hroot, Hstate by discriminate. root_attr.
  reflexivity.
Qed.

(** *** X10 *)

(** X10.  In the listbox context of a [SelectListbox] whose props carry
    none of [shouldSelectOnPressUp], [shouldFocusOnHover],
    [isVirtualized] and [shouldUseVirtualFocus], selection on press up
    and focus on hover are on, virtual focus is not set, and
    [isVirtualized] is the one of the select context, or [false] when the
    select context has none. *)
Theorem X10_select_listbox_context_flags
    (selectContext : SelectContext) (props : Props Value)
    (log log'' : RenderLog) r :
  render_SelectListbox selectContext props log = (Ok r, log'') ->
  props !! "shouldSelectOnPressUp" = None ->
  props !! "shouldFocusOnHover" = None ->
  props !! "isVirtualized" = None ->
  props !! "shouldUseVirtualFocus" = None ->
  ListboxContextValue.shouldSelectOnPressUp (context r) tt = Some (VBool true) /\
  ListboxContextValue.shouldFocusOnHover (context r) tt = Some (VBool true) /\
  ListboxContextValue.shouldUseVirtualFocus (context r) tt = None /\
  ListboxContextValue.isVirtualized (context r) tt =
    Some (match SelectContextValue.isVirtualized selectContext tt with
          | Some b => b
          | None => VBool false
          end).
Proof.
  intros Hrun Hpress Hhover Hvirt Hfocus.
  apply render_SelectListbox_returns in Hrun.
  destruct Hrun as (root & effect & Hrun & _ & _ & Hroot). cbv zeta in Hrun.
  pose proof (ListboxRoot_returns_context _ _ _ _ Hrun) as (_ & Hv & Hp & Hh).
  cbv zeta in Hv, Hp, Hh.
  rewrite lookup_mergeDefaultProps in Hv, Hp, Hh.
  rewrite lookup_defaults_other in Hv, Hp, Hh by discriminate.
  rewrite Hroot in Hv, Hp, Hh by discriminate.
  rewrite Hfocus in Hv. rewrite Hpress in Hp. rewrite Hhover in Hh.
  split; [rewrite Hp; root_attr; reflexivity|].
  split; [rewrite Hh; root_attr; reflexivity|].
  split; [rewrite Hv; root_attr; reflexivity|].
  apply ListboxRoot_returns in Hrun. cbv zeta in Hrun.
  destruct Hrun as (manager & children & _ & _ & _ & _ & -> & _).
  rewrite lookup_local by
    (apply (proj1 (bool_decide_eq_true _)); vm_compute; reflexivity).
  rewrite Hroot, Hvirt by discriminate. root_attr.
  destruct (SelectContextValue.isVirtualized selectContext tt); reflexivity.
Qed.

Ltac local_plain :=
  rewrite ?lookup_local_plain by first [ key_in | discriminate ].

Ltac lookup_attr :=
  unfold ListboxRoot_attrs; rewrite lookup_object; cbn [foldl fst snd];
  repeat (first [ rewrite decide_True by reflexivity
                | rewrite decide_False by discriminate ]).

(** A prop of [SelectListbox] under a name it does not write reaches
    [Listbox.Root] as it is. *)
Lemma SelectListbox_root_plain (context : SelectContext)
    (props root : Props Value) k :
  (forall k, k <> "ref" -> k <> "id" ->
     root !! k =
     match props !! k with
     | Some v => Some v
     | None =>
         SelectListbox_attrs context (SelectListbox_local context props) !! k
     end) ->
  k ∉ ["ref"; "id"; "state"; "isVirtualized"; "autoFocus";
       "shouldSelectOnPressUp"; "shouldFocusOnHover"; "aria-labelledby"] ->
  root !! k = props !! k.
Proof.
  intros Hroot Hk.
  assert (forall k', k' ∈ ["ref"; "id"; "state"; "isVirtualized"; "autoFocus";
                           "shouldSelectOnPressUp"; "shouldFocusOnHover";
                           "aria-labelledby"] -> k' <> k) as Hne
    by (intros k' Hin ->; exact (Hk Hin)).
  rewrite Hroot by (apply not_eq_sym, Hne; key_in).
  destruct (props !! k); [reflexivity|].
  unfold SelectListbox_attrs. rewrite lookup_object. cbn [foldl fst snd].
  repeat (rewrite decide_False by (apply Hne; key_in)). reflexivity.
Qed.

(** *** X11 *)

(** X11.  On the root element of a [SelectListbox]: the [ref] merges the
    component's own setter with the merge of the select context's setter
    and the caller's [ref]; [aria-labelledby] is the caller's or else the
    one of the select context; the role is ["listbox"] unless the caller
    has passed one; the options [SelectListbox] writes for
    [Listbox.Root] are not rendered as attributes; and without a [state]
    and an [aria-multiselectable] of the caller, [aria-multiselectable]
    follows the selection mode of the select context's list state. *)
Theorem X11_select_listbox_element
    (selectContext : SelectContext) (props : Props Value)
    (log log'' : RenderLog) r :
  render_SelectListbox selectContext props log = (Ok r, log'') ->
  polymorphic r !! "ref" =
    Some (mergeRefs
            [Some (VFun "el => (ref = el)");
             Some (mergeRefs
                     [Some (SelectContextValue.setListboxRef selectContext);
                      props !! "ref"])]) /\
  polymorphic r !! "aria-labelledby" =
    match props !! "aria-labelledby" with
    | Some v => Some v
    | None => SelectContextValue.listboxAriaLabelledBy selectContext tt
    end /\
  (props !! "role" = None -> polymorphic r !! "role" = Some (VStr "listbox")) /\
  (forall k,
     k ∈ ["state"; "isVirtualized"; "autoFocus"; "shouldSelectOnPressUp";
          "shouldFocusOnHover"] ->
     polymorphic r !! k = None) /\
  (props !! "state" = None -> props !! "aria-multiselectable" = None ->
   polymorphic r !! "aria-multiselectable" =
     if decide (selectionMode
                  (selectionManager (SelectContextValue.listState selectContext tt))
                = "multiple")
     then Some (VBool true) else None).
Proof.
  intros Hrun. apply render_SelectListbox_returns in Hrun.
  destruct Hrun as (root & effect & Hrun & _ & Href & Hroot). cbv zeta in Hrun.
  apply ListboxRoot_returns_state in Hrun. cbv zeta in Hrun.
  destruct Hrun as (s & children & sargs & Hstate & _ & _ & _ & _ & _ & _ & ->).
  split; [|split; [|split; [|split]]].
  - rewrite lookup_polymorphic by discriminate.
    rewrite lookup_others_split by key_in. lookup_attr.
    local_plain. rewrite Href. reflexivity.
  - rewrite lookup_polymorphic by discriminate.
    rewrite lookup_others_plain by first [key_notin | discriminate].
    rewrite Hroot by discriminate.
    destruct (props !! "aria-labelledby"); [reflexivity|].
    root_attr.
    destruct (SelectContextValue.listboxAriaLabelledBy selectContext tt);
      [reflexivity|]. lookup_attr. reflexivity.
  - intros Hrole. rewrite lookup_polymorphic by discriminate.
    rewrite lookup_others_plain by first [key_notin | discriminate].
    rewrite (SelectListbox_root_plain selectContext props root "role" Hroot)
      by key_notin.
    rewrite Hrole. lookup_attr. reflexivity.
  - intros k Hk. apply list_elem_of_In in Hk. cbn [In] in Hk.
    destruct Hk as [<-|[<-|[<-|[<-|[<-|[]]]]]];
      rewrite lookup_polymorphic by discriminate;
      rewrite lookup_others_split by key_in; lookup_attr; reflexivity.
  - intros Hs Haria.
    pose proof (SelectListbox_root_state selectContext props root Hroot Hs) as Hrs.
    rewrite Hrs in Hstate. cbn [truthy] in Hstate. injection Hstate as <-.
    rewrite lookup_polymorphic by discriminate.
    rewrite lookup_others_plain by first [key_notin | discriminate].
    rewrite (SelectListbox_root_plain selectContext props root
               "aria-multiselectable" Hroot) by key_notin.
    rewrite Haria. lookup_attr. reflexivity.
Qed.

(** *** X12 *)

(** X12.  A [SelectListbox] whose props carry no [state] makes three
    calls: [createEffect], [createUniqueId] and [createSelectableList].
    The selectable list reads the selection manager and the collection
    of the select context's list state, the caller's [scrollToItem] and
    [scrollRef], and the caller's [autoFocus] or else the one of the
    select context; the children of the element are what the caller's
    [children] function returns on the collection accessor of the select
    context's list state. *)
Theorem X12_select_listbox_options_reach_the_listbox
    (selectContext : SelectContext) (props : Props Value)
    (log log'' : RenderLog) r :
  render_SelectListbox selectContext props log = (Ok r, log'') ->
  props !! "state" = None ->
  exists effect sargs,
    new_calls log log'' =
      [CallCreateEffect effect; CallCreateUniqueId;
       CallCreateSelectableList sargs] /\
    CreateSelectableListProps.selectionManager sargs tt =
      Ok (selectionManager (SelectContextValue.listState selectContext tt)) /\
    CreateSelectableListProps.collection sargs tt =
      Ok (collection (SelectContextValue.listState selectContext tt)) /\
    CreateSelectableListProps.scrollToKey sargs tt = props !! "scrollToItem" /\
    CreateSelectableListProps.scrollRef sargs tt =
      optional_call (props !! "scrollRef") [] /\
    CreateSelectableListProps.autoFocus sargs tt =
      access (match props !! "autoFocus" with
              | Some v => Some v
              | None => SelectContextValue.autoFocus selectContext tt
              end) /\
    optional_call (props !! "children")
      [Some (VCollectionAccessor
               (collection (SelectContextValue.listState selectContext tt)))]
      = Ok (polymorphic r !! "children").
Proof.
  intros Hrun Hs. apply render_SelectListbox_returns in Hrun.
  destruct Hrun as (root & effect & Hrun & Hlog & _ & Hroot). cbv zeta in Hrun, Hlog.
  pose proof (SelectListbox_root_state selectContext props root Hroot Hs) as Hrs.
  assert (Hplain : forall k,
            k ∉ ["ref"; "id"; "state"; "isVirtualized"; "autoFocus";
                 "shouldSelectOnPressUp"; "shouldFocusOnHover";
                 "aria-labelledby"] -> root !! k = props !! k)
    by (intros k; apply (SelectListbox_root_plain selectContext); exact Hroot).
  apply ListboxRoot_returns_state in Hrun. cbv zeta in Hrun.
  destruct Hrun as (s & children & sargs & Hstate & _ & Hchildren & Hcalls
                    & Hmanager & Hcollection & [listState ->] & ->).
  rewrite Hrs in Hstate, Hcalls. cbn [truthy app] in Hstate, Hcalls.
  injection Hstate as <-.
  eexists effect, _. rewrite Hlog, Hcalls.
  split; [reflexivity|]. split; [exact Hmanager|]. split; [exact Hcollection|].
  cbn [selectableList_args CreateSelectableListProps.scrollToKey
       CreateSelectableListProps.scrollRef CreateSelectableListProps.autoFocus].
  local_plain. rewrite !Hplain by key_notin.
  split; [reflexivity|]. split; [reflexivity|]. split.
  - rewrite Hroot by discriminate.
    destruct (props !! "autoFocus"); [reflexivity|]. root_attr. reflexivity.
  - rewrite Hplain in Hchildren by key_notin. rewrite Hchildren. f_equal.
    rewrite lookup_mergeProps3, lookup_object. cbn [foldl fst snd].
    rewrite decide_True by reflexivity.
    destruct children; [reflexivity|].
    rewrite lookup_others_split by key_in. lookup_attr. reflexivity.
Qed.

(** A [SelectListbox] whose props carry no [state] gives its
    [Listbox.Root] a list state: that one throws exactly what the
    caller's [children] function throws on the collection accessor of the
    select context's list state, and returns its element exactly when
    that call returns. *)
Lemma render_SelectListbox_outcome
    (selectContext : SelectContext) (props : Props Value) (log : RenderLog) :
  props !! "state" = None ->
  (forall e,
     (render_SelectListbox selectContext props log).1 = Throw e <->
     optional_call (props !! "children")
       [Some (VCollectionAccessor
                (collection (SelectContextValue.listState selectContext tt)))]
       = Throw e) /\
  ((exists r, (render_SelectListbox selectContext props log).1 = Ok r) <->
   (exists children,
      optional_call (props !! "children")
        [Some (VCollectionAccessor
                 (collection (SelectContextValue.listState selectContext tt)))]
        = Ok children)) /\
  (props !! "children" = None ->
   exists r, (render_SelectListbox selectContext props log).1 = Ok r).
Proof.
  intros Hs. unfold render_SelectListbox, mbind, Render_bind.
  destruct (SelectListbox_root selectContext props log)
    as (root & effect & -> & _ & Hroot).
  pose proof (SelectListbox_root_state selectContext props root Hroot Hs) as Hrs.
  pose proof (SelectListbox_root_plain selectContext props root "children" Hroot)
    as Hchildren.
  destruct (ListboxRoot_outcome_with_state root _
              {| next_uid := next_uid log;
                 calls := calls log ++ [CallCreateEffect effect] |} Hrs)
    as [Hthrow Hok].
  rewrite Hchildren in Hthrow, Hok by key_notin.
  split; [exact Hthrow|]. split; [exact Hok|].
  intros Hnone. apply Hok. rewrite Hnone. eexists. reflexivity.
Qed.

(** A [SelectListbox] without a [state] prop returns when the call of
    [children] returns. *)
Lemma render_SelectListbox_completes (context : SelectContext)
    (props : Props Value) (log : RenderLog) children :
  props !! "state" = None ->
  optional_call (props !! "children")
    [Some (VCollectionAccessor
             (collection (SelectContextValue.listState context tt)))]
    = Ok children ->
  exists r log'', render_SelectListbox context props log = (Ok r, log'').
Proof.
  intros Hs Hc. unfold render_SelectListbox, mbind, Render_bind.
  destruct (SelectListbox_root context props log)
    as (root & effect & -> & _ & Hroot).
  pose proof (SelectListbox_root_state context props root Hroot Hs) as Hrs.
  pose proof (SelectListbox_root_plain context props root "children" Hroot)
    as Hchildren.
  destruct (ListboxRoot_outcome_with_state root _
              {| next_uid := next_uid log;
                 calls := calls log ++ [CallCreateEffect effect] |} Hrs)
    as [_ Hok].
  rewrite Hchildren in Hok by key_notin.
  destruct (proj2 Hok (ex_intro _ children Hc)) as [r Hr].
  destruct (ListboxRoot root _) as [res log''].
  cbn [fst] in Hr. subst res. eauto.
Qed.

End SelectListboxFacts.

(** ** [ListboxRoot] and its element *)

Section ElementFacts.
Context {Collection SelectionManager : Type}.
Context `{!Framework Collection SelectionManager}.
Context `{!Polymorphism Collection SelectionManager}.

Local Abbreviation Value := (Value Collection SelectionManager).
Local Abbreviation ListState := (ListState Collection SelectionManager).
Local Abbreviation RenderLog := (RenderLog Collection SelectionManager).
Local Abbreviation SelectContext := (SelectContextValue.t Value ListState).


(** Without [asChild] the element is rendered whatever its children are. *)
Lemma render_ListboxRoot_without_asChild (props : Props Value) (log : RenderLog) :
  truthy (props !! "asChild") = false ->
  render_ListboxRoot props log = ListboxRoot props log.
Proof.
  intros HasChild.
  unfold render_ListboxRoot, mbind, mret, Render_bind, Render_ret, lift.
  destruct (ListboxRoot props log) as [[r|e] log'] eqn:Hrun; [|reflexivity].
  unfold Polymorphic. rewrite (polymorphic_asChild _ _ _ _ Hrun), HasChild.
  reflexivity.
Qed.

(** With [asChild] and without children there is no [As] child. *)
Lemma render_ListboxRoot_asChild_alone (props : Props Value) (log log' : RenderLog) r :
  ListboxRoot props log = (Ok r, log') ->
  truthy (props !! "asChild") = true ->
  polymorphic r !! "children" = None ->
  render_ListboxRoot props log = (Throw (Thrown "Polymorphic"), log').
Proof.
  intros Hrun HasChild Hchildren.
  unfold render_ListboxRoot, mbind, mret, Render_bind, Render_ret, lift.
  rewrite Hrun. unfold Polymorphic.
  rewrite (polymorphic_asChild _ _ _ _ Hrun), HasChild, Hchildren.
  reflexivity.
Qed.

(** [asChild] goes from the props of a [SelectListbox] to the element. *)
Lemma render_SelectListbox_element_without_asChild (context : SelectContext)
    (props : Props Value) (log : RenderLog) :
  truthy (props !! "asChild") = false ->
  render_SelectListbox_element context props log =
  render_SelectListbox context props log.
Proof.
  intros HasChild.
  unfold render_SelectListbox_element, render_SelectListbox, mbind, Render_bind.
  destruct (SelectListbox_root context props log)
    as (root & effect & -> & _ & Hroot).
  apply render_ListboxRoot_without_asChild.
  rewrite (SelectListbox_root_plain context props root "asChild" Hroot);
    [exact HasChild|].
  apply (proj1 (bool_decide_eq_false _)). vm_compute. reflexivity.
Qed.

(** *** C6 *)

(** C6, as amended.  When [children], [scrollRef], [options],
    [onValueChange], [keyboardDelegate] and [scrollToItem] are absent,
    [asChild] is not set and [state] is falsy or a list state,
    [ListboxRoot] and its element are rendered without a throw, the list
    services returning: the element has no children, the data source
    handed to [createListState] is the empty array and its selection
    callback is undefined, and the scroll reference, the keyboard
    delegate and the scroll function handed to [createSelectableList]
    read as undefined, without throwing.  With [asChild] set and the
    same props absent, the element finds no [As] child and throws. *)
Theorem C6_absent_optional_props_do_not_throw
    (props : Props Value) (log : RenderLog) :
  props !! "children" = None ->
  props !! "scrollRef" = None ->
  props !! "options" = None ->
  props !! "onValueChange" = None ->
  props !! "keyboardDelegate" = None ->
  props !! "scrollToItem" = None ->
  (truthy (props !! "state") = false \/
   exists s, props !! "state" = Some (VListState s)) ->
  (truthy (props !! "asChild") = false ->
   exists r log',
     render_ListboxRoot props log = (Ok r, log') /\
     polymorphic r !! "children" = None /\
     (forall args,
        CallCreateListState args ∈ new_calls log log' ->
        CreateListStateProps.dataSource args tt = VArr [] /\
        CreateListStateProps.onSelectionChange args = None) /\
     (forall sargs,
        CallCreateSelectableList sargs ∈ new_calls log log' ->
        CreateSelectableListProps.scrollRef sargs tt = Ok None /\
        CreateSelectableListProps.keyboardDelegate sargs tt = None /\
        CreateSelectableListProps.scrollToKey sargs tt = None)) /\
  (truthy (props !! "asChild") = true ->
   (render_ListboxRoot props log).1 = Throw (Thrown "Polymorphic")).
Proof.
  intros Hchildren HscrollRef Hoptions Hchange Hdelegate Hscroll Hstate.
  destruct (ListboxRoot_returns_without_optional_props props log
              Hchildren HscrollRef Hoptions Hchange Hdelegate Hscroll Hstate)
    as (r & log' & Hrun & Hnone & Hcalls).
  split.
  - intros HasChild. rewrite render_ListboxRoot_without_asChild by exact HasChild.
    exists r, log'. split; [exact Hrun|]. split; [exact Hnone | exact Hcalls].
  - intros HasChild.
    rewrite (render_ListboxRoot_asChild_alone props log log' r Hrun HasChild Hnone).
    reflexivity.
Qed.

(** *** X4 *)

(** X4.  With [asChild] not set and the list services returning,
    [ListboxRoot] and its element throw in two cases only.  When the
    [state] prop is truthy and is not a list state, the render throws a
    type error, whatever the other props are.  Otherwise it throws
    exactly what the call of the [children] prop on the collection
    accessor of the list state throws, and returns when that call
    returns. *)
Theorem X4_render_throws_in_two_cases_only
    (props : Props Value) (log : RenderLog) :
  truthy (props !! "asChild") = false ->
  (truthy (props !! "state") = true ->
   (forall s, props !! "state" <> Some (VListState s)) ->
   (render_ListboxRoot props log).1 =
     Throw (TypeError "listState().selectionManager is not a function")) /\
  (truthy (props !! "state") = false \/
   (exists s, props !! "state" = Some (VListState s)) ->
   exists s,
     (forall s', props !! "state" = Some (VListState s') -> s' = s) /\
     (forall e,
        (render_ListboxRoot props log).1 = Throw e <->
        optional_call (props !! "children")
                      [Some (VCollectionAccessor (collection s))] = Throw e) /\
     ((exists r, (render_ListboxRoot props log).1 = Ok r) <->
      (exists children,
         optional_call (props !! "children")
                       [Some (VCollectionAccessor (collection s))] = Ok children))).
Proof.
  intros HasChild. rewrite render_ListboxRoot_without_asChild by exact HasChild.
  apply ListboxRoot_outcome.
Qed.

(** *** X5 *)


(** *** X13 *)

(** X13.  A [SelectListbox] whose props carry no [state] and do not set
    [asChild] never fails on its list state: with the list services
    returning, the render throws exactly what the caller's [children]
    function throws on the collection accessor of the select context's
    list state, and returns exactly when that call returns; without
    [children] it returns. *)
Theorem X13_select_listbox_throws_with_children_only
    (selectContext : SelectContext) (props : Props Value) (log : RenderLog) :
  props !! "state" = None ->
  truthy (props !! "asChild") = false ->
  (forall e,
     (render_SelectListbox_element selectContext props log).1 = Throw e <->
     optional_call (props !! "children")
       [Some (VCollectionAccessor
                (collection (SelectContextValue.listState selectContext tt)))]
       = Throw e) /\
  ((exists r, (render_SelectListbox_element selectContext props log).1 = Ok r) <->
   (exists children,
      optional_call (props !! "children")
        [Some (VCollectionAccessor
                 (collection (SelectContextValue.listState selectContext tt)))]
        = Ok children)) /\
  (props !! "children" = None ->
   exists r, (render_SelectListbox_element selectContext props log).1 = Ok r).
Proof.
  intros Hstate HasChild.
  rewrite render_SelectListbox_element_without_asChild by exact HasChild.
  apply render_SelectListbox_outcome. exact Hstate.
Qed.

End ElementFacts.

(** ** The components on concrete props *)

#[local] Existing Instance Demo.framework.
#[local] Existing Instance Demo.polymorphism.

Ltac by_run := vm_compute; reflexivity.
Ltac key_in_list :=
  apply (proj1 (bool_decide_eq_true _)); vm_compute; reflexivity.
Ltac key_notin_list :=
  apply (proj1 (bool_decide_eq_false _)); vm_compute; reflexivity.

(** Runs the component of the goal and names what it has returned. *)
Ltac run_demo Hrun :=
  match goal with
  | |- exists r log', ?run = (Ok r, log') /\ _ =>
      let r := fresh "r" in
      let log' := fresh "log'" in
      let e := fresh "e" in
      destruct run as [[r|e] log'] eqn:Hrun;
      [ exists r, log'; split; [reflexivity|]
      | vm_compute in Hrun; discriminate Hrun ]
  end.

(** A [state] prop: no list state is made, and the state is the one
    provided. *)
Lemma C1_witness :
  Demo.props_with_state !! "state" = Some (VListState Demo.single_state) /\
  (forall args,
     CallCreateListState args ∉
     new_calls Demo.log0 (ListboxRoot Demo.props_with_state Demo.log0).2) /\
  exists r,
    (ListboxRoot Demo.props_with_state Demo.log0).1 = Ok r /\
    ListboxContextValue.listState (context r) tt =
      Some (VListState Demo.single_state).
Proof.
  split; [by_run|].
  destruct (C1_provided_state_is_the_list_state
              Demo.props_with_state Demo.single_state Demo.log0 ltac:(by_run))
    as (_ & Hnever & Hstate & _).
  split; [exact Hnever|].
  eexists. split; [vm_compute; reflexivity|].
  apply Hstate. vm_compute. reflexivity.
Defined.

(** The ARIA attribute set by the caller is rendered, in a listbox whose
    selection mode is ["single"]. *)
Lemma C2_counterexample :
  exists r log',
    ListboxRoot Demo.props_aria Demo.log0 = (Ok r, log') /\
    exists manager,
      call_selectionManager (ListboxContextValue.listState (context r) tt) =
        Ok manager /\
      polymorphic r !! "aria-multiselectable" = Some (VBool true) /\
      selectionMode manager = "single" /\
      ~ (polymorphic r !! "aria-multiselectable" = Some (VBool true) <->
         selectionMode manager = "multiple").
Proof.
  run_demo Hrun.
  vm_compute in Hrun. injection Hrun as Hr _. rewrite <- Hr.
  exists "single". split; [by_run|]. split; [by_run|]. split; [by_run|].
  intros [Hmultiple _].
  assert (Hmode : "single" = "multiple") by (apply Hmultiple; by_run).
  discriminate Hmode.
Defined.

(** Without an ARIA attribute from the caller, a listbox in multiple
    selection mode is marked multiselectable. *)
Lemma C2_witness :
  exists r log',
    ListboxRoot Demo.props_multiple Demo.log0 = (Ok r, log') /\
    polymorphic r !! "aria-multiselectable" = Some (VBool true).
Proof.
  run_demo Hrun.
  destruct (C2_aria_multiselectable_follows_selection_mode
              Demo.props_multiple Demo.log0 _ _ Hrun)
    as (manager & Hmanager & _ & Habsent & _).
  rewrite (Habsent ltac:(by_run)).
  vm_compute in Hrun. injection Hrun as Hr _. rewrite <- Hr in Hmanager.
  vm_compute in Hmanager. injection Hmanager as Hm. rewrite <- Hm.
  reflexivity.
Defined.

(** Without a [state] prop, the list state is made from the options. *)
Lemma C3_witness :
  Demo.props_multiple !! "state" = None /\
  exists args sargs,
    new_calls Demo.log0 (ListboxRoot Demo.props_multiple Demo.log0).2 =
      [CallCreateUniqueId; CallCreateListState args;
       CallCreateSelectableList sargs] /\
    CreateListStateProps.dataSource args tt = VArr [VStr "apple"; VStr "banana"] /\
    CreateListStateProps.getKey args tt = Some (VStr "value").
Proof.
  split; [by_run|].
  destruct (C3_collection_is_built_from_options
              Demo.props_multiple Demo.log0 ltac:(by_run))
    as (args & sargs & Hcalls & Hdata & _ & Hkey & _).
  exists args, sargs. split; [exact Hcalls|]. split; [exact Hdata | exact Hkey].
Defined.

(** The flag of [Listbox.Root] carried by the props of a [SelectListbox]
    replaces the one [SelectListbox] writes. *)
Lemma C4_counterexample :
  exists root,
    (SelectListbox Demo.select_context Demo.props_flag Demo.log0).1 = Ok root /\
    root !! "shouldSelectOnPressUp" = Some (VBool false) /\
    root !! "shouldSelectOnPressUp" <> Some (VBool true).
Proof.
  destruct (SelectListbox_run Demo.select_context Demo.props_flag Demo.log0)
    as (others & Hothers & _ & Hrun).
  rewrite Hrun. eexists. split; [reflexivity|].
  assert (Hflag : Demo.props_flag !! "shouldSelectOnPressUp" = Some (VBool false))
    by by_run.
  rewrite lookup_mergeProps2, Hothers, Hflag by discriminate.
  split; [reflexivity | discriminate].
Defined.

(** A [SelectListbox] with a class only. *)
Lemma C4_witness :
  exists root log',
    SelectListbox Demo.select_context Demo.props_class Demo.log0 =
      (Ok root, log') /\
    root !! "state" = Some (VListState Demo.single_state) /\
    root !! "shouldSelectOnPressUp" = Some (VBool true) /\
    root !! "shouldFocusOnHover" = Some (VBool true).
Proof.
  destruct (C4_SelectListbox_passes_the_select_context
              Demo.select_context Demo.props_class Demo.log0
              ltac:(by_run) ltac:(by_run) ltac:(by_run) ltac:(by_run) ltac:(by_run))
    as (root & log' & Hrun & Hstate & _ & _ & Hpress & Hhover & _).
  exists root, log'. auto.
Defined.

(** The handler of the caller comes first. *)
Lemma C5_witness :
  exists r log',
    ListboxRoot Demo.props_with_state Demo.log0 = (Ok r, log') /\
    polymorphic r !! "onKeyDown" =
      Some (VFun "compose(user.onKeyDown,selectableList.onKeyDown)") /\
    polymorphic r !! "onFocusIn" =
      Some (VFun "compose(undefined,selectableList.onFocusIn)").
Proof.
  run_demo Hrun.
  destruct (C5_handlers_compose_caller_first
              Demo.props_with_state Demo.log0 _ _ Hrun)
    as (sargs & _ & HkeyDown & _ & HfocusIn & _).
  rewrite HkeyDown, HfocusIn. split; reflexivity.
Defined.

(** No prop at all. *)
Lemma C6_witness :
  exists r log',
    render_ListboxRoot Demo.props_none Demo.log0 = (Ok r, log') /\
    polymorphic r !! "children" = None.
Proof.
  pose proof (C6_absent_optional_props_do_not_throw Demo.props_none Demo.log0)
    as Hreturns.
  destruct Hreturns as [Hreturns _];
    [by_run | by_run | by_run | by_run | by_run | by_run | left; by_run |].
  destruct Hreturns as (r & log' & Hrun & Hchildren & _); [by_run|].
  exists r, log'. auto.
Defined.

(** [asChild] is a declared prop; with it and no children the element
    finds no [As] child. *)
Lemma C6_counterexample :
  Demo.props_asChild !! "children" = None /\
  Demo.props_asChild !! "scrollRef" = None /\
  Demo.props_asChild !! "options" = None /\
  Demo.props_asChild !! "onValueChange" = None /\
  Demo.props_asChild !! "keyboardDelegate" = None /\
  Demo.props_asChild !! "scrollToItem" = None /\
  Demo.props_asChild !! "state" = None /\
  (render_ListboxRoot Demo.props_asChild Demo.log0).1 =
    Throw (Thrown "Polymorphic").
Proof.
  split; [by_run|]. split; [by_run|]. split; [by_run|]. split; [by_run|].
  split; [by_run|]. split; [by_run|]. split; [by_run|]. by_run.
Defined.

(** The caller's id, and the default [isVirtualized]. *)
Lemma C7_witness :
  exists r log',
    ListboxRoot Demo.props_multiple Demo.log0 = (Ok r, log') /\
    polymorphic r !! "id" = Some (VStr "fruits") /\
    ListboxContextValue.isVirtualized (context r) tt = Some (VBool false).
Proof.
  run_demo Hrun.
  destruct (C7_caller_props_override_defaults
              Demo.props_multiple Demo.log0 _ _ Hrun)
    as (uid & _ & Hid & _ & Hvirtualized & _ & _ & _).
  rewrite Hid, Hvirtualized. split; reflexivity.
Defined.

(** The caller's role and tabIndex. *)
Lemma C8_witness :
  exists r log',
    ListboxRoot Demo.props_multiple Demo.log0 = (Ok r, log') /\
    polymorphic r !! "role" = Some (VStr "menu") /\
    polymorphic r !! "tabIndex" = Some (VNum 3).
Proof.
  run_demo Hrun.
  destruct (C8_residual_role_and_tabIndex_override
              Demo.props_multiple Demo.log0 _ _ Hrun)
    as (_ & _ & Hrole & _ & Htab & _).
  split; [apply Hrole | apply Htab]; reflexivity.
Defined.

(** *** More runs *)

(** The class of the caller is on the element. *)
Lemma X1_witness :
  exists r log',
    ListboxRoot Demo.props_children Demo.log0 = (Ok r, log') /\
    polymorphic r !! "class" = Some (VStr "fruits") /\
    polymorphic r !! "fallback" = Some (VStr "ul").
Proof.
  run_demo Hrun.
  destruct (X1_residual_props_reach_the_element
              Demo.props_children Demo.log0 _ _ Hrun)
    as (Hpassed & _ & Hfallback).
  split; [apply Hpassed; [key_notin_list | by_run] | apply Hfallback; by_run].
Defined.

(** The [value] of the caller is not. *)
Lemma X2_witness :
  exists r log',
    ListboxRoot Demo.props_children Demo.log0 = (Ok r, log') /\
    polymorphic r !! "value" = None.
Proof.
  run_demo Hrun.
  apply (X2_split_props_stay_inside Demo.props_children Demo.log0 _ _ "value" Hrun);
    [key_in_list | key_notin_list].
Defined.

(** The children are what the [children] function has returned. *)
Lemma X3_witness :
  exists r log',
    ListboxRoot Demo.props_children Demo.log0 = (Ok r, log') /\
    polymorphic r !! "children" = Some (VStr "result of renderItems").
Proof.
  run_demo Hrun.
  destruct (X3_one_list_state_for_all_readers
              Demo.props_children Demo.log0 _ _ Hrun)
    as (s & sargs & _ & _ & _ & _ & _ & Hchildren & _).
  assert (Hprop : Demo.props_children !! "children" = Some (VFun "renderItems"))
    by by_run.
  assert (Hcall : forall args,
            optional_call (Some (VFun "renderItems" : Demo.V)) args =
            Ok (Some (VStr "result of renderItems")))
    by (intros args; by_run).
  rewrite Hprop, Hcall in Hchildren. congruence.
Defined.

(** A [state] that is not a list state. *)
Lemma X4_witness :
  (render_ListboxRoot Demo.props_bad_state Demo.log0).1 =
  Throw (TypeError "listState().selectionManager is not a function").
Proof.
  assert (HasChild : truthy (Demo.props_bad_state !! "asChild") = false)
    by by_run.
  apply (proj1 (X4_render_throws_in_two_cases_only
                  Demo.props_bad_state Demo.log0 HasChild)).
  - by_run.
  - intros s Hs. vm_compute in Hs. discriminate Hs.
Defined.

(** The caller's id is the base of the generated ids. *)
Lemma X6_witness :
  exists r log',
    ListboxRoot Demo.props_multiple Demo.log0 = (Ok r, log') /\
    ListboxContextValue.generateId (context r) "option" = "fruits-option".
Proof.
  run_demo Hrun.
  destruct (X6_generated_ids_follow_the_rendered_id
              Demo.props_multiple Demo.log0 _ _ Hrun)
    as (baseId & -> & _ & Hbase).
  assert (Hid : Demo.props_multiple !! "id" = Some (VStr "fruits")) by by_run.
  rewrite Hid in Hbase. cbn [createGenerateId Demo.framework].
  rewrite Hbase. reflexivity.
Defined.

(** Focus on hover is on, selection on press up is not set. *)
Lemma X7_witness :
  exists r log',
    ListboxRoot Demo.props_children Demo.log0 = (Ok r, log') /\
    ListboxContextValue.shouldFocusOnHover (context r) tt = Some (VBool true) /\
    ListboxContextValue.shouldSelectOnPressUp (context r) tt = None.
Proof.
  run_demo Hrun.
  destruct (X7_context_flags_are_the_props
              Demo.props_children Demo.log0 _ _ Hrun)
    as (_ & Hpress & Hhover & _).
  rewrite Hpress, Hhover. split; by_run.
Defined.

(** The render returns with a [scrollRef] that cannot be called; forcing
    the scroll accessor throws. *)
Lemma X8_witness :
  exists r log',
    ListboxRoot Demo.props_children Demo.log0 = (Ok r, log') /\
    exists sargs,
      CallCreateSelectableList sargs ∈ new_calls Demo.log0 log' /\
      CreateSelectableListProps.scrollRef sargs tt =
        Throw (TypeError "not a function").
Proof.
  run_demo Hrun.
  destruct (X8_selectable_list_reads_the_props
              Demo.props_children Demo.log0 _ _ Hrun)
    as (sargs & Hlogged & _ & _ & _ & _ & _ & _ & _ & _ & _ & _ & Hbad).
  exists sargs. split; [exact Hlogged|]. apply (Hbad "#list"). by_run.
Defined.

(** The [value] of the caller is the selected keys. *)
Lemma X9_witness :
  truthy (Demo.props_children !! "state") = false /\
  exists args sargs,
    new_calls Demo.log0 (ListboxRoot Demo.props_children Demo.log0).2 =
      [CallCreateUniqueId; CallCreateListState args;
       CallCreateSelectableList sargs] /\
    CreateListStateProps.selectedKeys args tt = Some (VArr [VStr "apple"]).
Proof.
  assert (Hstate : truthy (Demo.props_children !! "state") = false) by by_run.
  split; [exact Hstate|].
  destruct (X9_selection_state_reads_the_props
              Demo.props_children Demo.log0 Hstate)
    as (args & sargs & Hcalls & Hkeys & _).
  exists args, sargs. split; [exact Hcalls|]. rewrite Hkeys. by_run.
Defined.

(** Runs a [SelectListbox] that has neither [state] nor [children]. *)
Ltac run_select Hrun :=
  match goal with
  | |- exists r log', render_SelectListbox ?c ?p ?l = (Ok r, log') /\ _ =>
      let r := fresh "r" in
      let log'' := fresh "log''" in
      destruct (render_SelectListbox_completes c p l None
                  ltac:(by_run) ltac:(by_run)) as (r & log'' & Hrun);
      exists r, log''; split; [exact Hrun|]
  end.

(** The flags of the listbox of a select. *)
Lemma X10_witness :
  exists r log',
    render_SelectListbox Demo.select_context Demo.props_class Demo.log0 =
      (Ok r, log') /\
    ListboxContextValue.shouldSelectOnPressUp (context r) tt = Some (VBool true) /\
    ListboxContextValue.isVirtualized (context r) tt = Some (VBool false).
Proof.
  run_select Hrun.
  destruct (X10_select_listbox_context_flags
              Demo.select_context Demo.props_class Demo.log0 _ _ Hrun
              ltac:(by_run) ltac:(by_run) ltac:(by_run) ltac:(by_run))
    as (Hpress & _ & _ & Hvirtualized).
  split; [exact Hpress | exact Hvirtualized].
Defined.

(** The element of the listbox of a select. *)
Lemma X11_witness :
  exists r log',
    render_SelectListbox Demo.select_context Demo.props_class Demo.log0 =
      (Ok r, log') /\
    polymorphic r !! "aria-labelledby" = Some (VStr "select-1-label") /\
    polymorphic r !! "role" = Some (VStr "listbox") /\
    polymorphic r !! "shouldSelectOnPressUp" = None.
Proof.
  run_select Hrun.
  destruct (X11_select_listbox_element
              Demo.select_context Demo.props_class Demo.log0 _ _ Hrun)
    as (_ & Hlabel & Hrole & Hflags & _).
  split; [|split].
  - rewrite Hlabel. by_run.
  - apply Hrole. by_run.
  - apply Hflags. key_in_list.
Defined.

(** The [children] function of a select listbox is called. *)
Lemma X12_witness :
  exists r log',
    render_SelectListbox Demo.select_context Demo.props_select Demo.log0 =
      (Ok r, log') /\
    polymorphic r !! "children" = Some (VStr "result of renderItems") /\
    exists sargs,
      CallCreateSelectableList sargs ∈ new_calls Demo.log0 log' /\
      CreateSelectableListProps.scrollToKey sargs tt = Some (VFun "scrollTo").
Proof.
  destruct (render_SelectListbox_completes
              Demo.select_context Demo.props_select Demo.log0
              (Some (VStr "result of renderItems")) ltac:(by_run) ltac:(by_run))
    as (r & log' & Hrun).
  exists r, log'. split; [exact Hrun|].
  destruct (X12_select_listbox_options_reach_the_listbox
              Demo.select_context Demo.props_select Demo.log0 _ _ Hrun
              ltac:(by_run))
    as (effect & sargs & Hcalls & _ & _ & Hscroll & _ & _ & Hchildren).
  split.
  - assert (Hcall : optional_call (Demo.props_select !! "children")
              [Some (VCollectionAccessor
                       (collection
                          (SelectContextValue.listState Demo.select_context tt)))]
            = Ok (Some (VStr "result of renderItems"))) by by_run.
    rewrite Hcall in Hchildren. congruence.
  - exists sargs. split.
    + rewrite Hcalls. apply list_elem_of_In. cbn [In]. auto.
    + rewrite Hscroll. by_run.
Defined.

(** A select listbox without children returns. *)
Lemma X13_witness :
  Demo.props_class !! "state" = None /\
  truthy (Demo.props_class !! "asChild") = false /\
  exists r,
    (render_SelectListbox_element
       Demo.select_context Demo.props_class Demo.log0).1 = Ok r.
Proof.
  assert (Hstate : Demo.props_class !! "state" = None) by by_run.
  assert (HasChild : truthy (Demo.props_class !! "asChild") = false) by by_run.
  split; [exact Hstate|]. split; [exact HasChild|].
  apply (X13_select_listbox_throws_with_children_only
           Demo.select_context Demo.props_class Demo.log0 Hstate HasChild).
  by_run.
Defined.

(** *** Renders that throw *)

(** A [children] prop that is not a function cannot be called. *)
Example ListboxRoot_throws_on_uncallable_children :
  (ListboxRoot ({[ "children" := VStr "text" ]} : Props Demo.V) Demo.log0).1 =
  Throw (TypeError "not a function").
Proof. vm_compute. reflexivity. Qed.

(** A [children] function that throws makes the render throw. *)
Example ListboxRoot_throws_with_children :
  (ListboxRoot ({[ "children" := VFun "thrower" ]} : Props Demo.V) Demo.log0).1 =
  Throw (Thrown "thrower").
Proof. vm_compute. reflexivity. Qed.

(** A truthy [state] that is not a list state has no selection manager. *)
Example ListboxRoot_throws_on_bad_state :
  (ListboxRoot ({[ "state" := VStr "open" ]} : Props Demo.V) Demo.log0).1 =
  Throw (TypeError "listState().selectionManager is not a function").
Proof. vm_compute. reflexivity. Qed.

(** A falsy [state] counts as none: the list state is made from the
    options. *)
Example ListboxRoot_makes_state_on_null_state :
  exists args sargs,
    new_calls Demo.log0
      (ListboxRoot ({[ "state" := VNull ]} : Props Demo.V) Demo.log0).2 =
    [CallCreateUniqueId; CallCreateListState args; CallCreateSelectableList sargs].
Proof. eexists _, _. vm_compute. reflexivity. Qed.

